(** * HealthChatbot: the keyword-matching engine of [chatbot_engine.py]
    and its HTTP front end [app.py]

    A shallow embedding of class [HealthChatbot], of the request handlers
    that call it, and the properties of loader, matcher and handlers.

    Conventions of the embedding.
    - A Python [str] is the list of its code points.  [str.lower],
      [str.strip] and [str.split] are modelled on all of Unicode, with
      the tables of the Unicode Character Database 14.0 that CPython 3.11
      carries: the lower-case mappings, the properties Cased and
      Case_Ignorable that decide the final sigma, and White_Space.
    - The value [json.load] returns is a [json] tree; Python [dict]s keep
      their insertion order, so an object is an association list (of
      distinct keys; [lookup] reads the first binding of a key).
    - A method of the class is a computation of the monad [M]: it threads
      the instance [self] and either returns a value or raises an [exn].
    - Numbers are Python's: integers are unbounded, confidence scores
      and loaded floats are binary64. *)

From Stdlib Require Import Strings.String Strings.Ascii Lists.List Bool.Bool.
From Stdlib Require Import NArith.NArith ZArith.ZArith Arith.Arith Lia.
From Stdlib Require Import Floats.PrimFloat.
Import ListNotations.
Open Scope string_scope.
Open Scope list_scope.

#[local] Set Warnings "-register-all,-inexact-float".

(* ================================================================= *)
(** ** Unicode data *)

Module Unicode.
#[local] Open Scope N_scope.

(** The code points with property White_Space that [str.isspace],
    [str.strip] and [str.split] recognise. *)
Definition white_space : list N :=
  [0x9; 0xA; 0xB; 0xC; 0xD; 0x1C; 0x1D; 0x1E; 0x1F; 0x20; 0x85; 0xA0; 0x1680; 0x2000; 0x2001; 0x2002; 0x2003; 0x2004; 0x2005; 0x2006; 0x2007; 0x2008; 0x2009; 0x200A; 0x2028; 0x2029; 0x202F; 0x205F; 0x3000].

(** Code points in one of the sorted, disjoint ranges [rs]. *)
Fixpoint in_ranges (c : N) (rs : list (N * N)) : bool :=
  match rs with
  | [] => false
  | (lo, hi) :: rs' =>
      if c <? lo then false
      else if c <=? hi then true
      else in_ranges c rs'
  end.

(** The value bound to [c] in a table sorted by key. *)
Fixpoint assoc (c : N) (t : list (N * list N)) : option (list N) :=
  match t with
  | [] => None
  | (k, v) :: t' =>
      if c =? k then Some v
      else if c <? k then None
      else assoc c t'
  end.

(** Property Cased: the letters that have a case. *)
Definition cased_ranges : list (N * N) :=
  [
   (0x41, 0x5A); (0x61, 0x7A); (0xAA, 0xAA); (0xB5, 0xB5);
   (0xBA, 0xBA); (0xC0, 0xD6); (0xD8, 0xF6); (0xF8, 0x1BA);
   (0x1BC, 0x1BF); (0x1C4, 0x293); (0x295, 0x2B8); (0x2C0, 0x2C1);
   (0x2E0, 0x2E4); (0x345, 0x345); (0x370, 0x373); (0x376, 0x377);
   (0x37A, 0x37D); (0x37F, 0x37F); (0x386, 0x386); (0x388, 0x38A);
   (0x38C, 0x38C); (0x38E, 0x3A1); (0x3A3, 0x3F5); (0x3F7, 0x481);
   (0x48A, 0x52F); (0x531, 0x556); (0x560, 0x588); (0x10A0, 0x10C5);
   (0x10C7, 0x10C7); (0x10CD, 0x10CD); (0x10D0, 0x10FA); (0x10FD, 0x10FF);
   (0x13A0, 0x13F5); (0x13F8, 0x13FD); (0x1C80, 0x1C88); (0x1C90, 0x1CBA);
   (0x1CBD, 0x1CBF); (0x1D00, 0x1DBF); (0x1E00, 0x1F15); (0x1F18, 0x1F1D);
   (0x1F20, 0x1F45); (0x1F48, 0x1F4D); (0x1F50, 0x1F57); (0x1F59, 0x1F59);
   (0x1F5B, 0x1F5B); (0x1F5D, 0x1F5D); (0x1F5F, 0x1F7D); (0x1F80, 0x1FB4);
   (0x1FB6, 0x1FBC); (0x1FBE, 0x1FBE); (0x1FC2, 0x1FC4); (0x1FC6, 0x1FCC);
   (0x1FD0, 0x1FD3); (0x1FD6, 0x1FDB); (0x1FE0, 0x1FEC); (0x1FF2, 0x1FF4);
   (0x1FF6, 0x1FFC); (0x2071, 0x2071); (0x207F, 0x207F); (0x2090, 0x209C);
   (0x2102, 0x2102); (0x2107, 0x2107); (0x210A, 0x2113); (0x2115, 0x2115);
   (0x2119, 0x211D); (0x2124, 0x2124); (0x2126, 0x2126); (0x2128, 0x2128);
   (0x212A, 0x212D); (0x212F, 0x2134); (0x2139, 0x2139); (0x213C, 0x213F);
   (0x2145, 0x2149); (0x214E, 0x214E); (0x2160, 0x217F); (0x2183, 0x2184);
   (0x24B6, 0x24E9); (0x2C00, 0x2CE4); (0x2CEB, 0x2CEE); (0x2CF2, 0x2CF3);
   (0x2D00, 0x2D25); (0x2D27, 0x2D27); (0x2D2D, 0x2D2D); (0xA640, 0xA66D);
   (0xA680, 0xA69D); (0xA722, 0xA787); (0xA78B, 0xA78E); (0xA790, 0xA7CA);
   (0xA7D0, 0xA7D1); (0xA7D3, 0xA7D3); (0xA7D5, 0xA7D9); (0xA7F5, 0xA7F6);
   (0xA7F8, 0xA7FA); (0xAB30, 0xAB5A); (0xAB5C, 0xAB68); (0xAB70, 0xABBF);
   (0xFB00, 0xFB06); (0xFB13, 0xFB17); (0xFF21, 0xFF3A); (0xFF41, 0xFF5A);
   (0x10400, 0x1044F); (0x104B0, 0x104D3); (0x104D8, 0x104FB); (0x10570, 0x1057A);
   (0x1057C, 0x1058A); (0x1058C, 0x10592); (0x10594, 0x10595); (0x10597, 0x105A1);
   (0x105A3, 0x105B1); (0x105B3, 0x105B9); (0x105BB, 0x105BC); (0x10780, 0x10780);
   (0x10783, 0x10785); (0x10787, 0x107B0); (0x107B2, 0x107BA); (0x10C80, 0x10CB2);
   (0x10CC0, 0x10CF2); (0x118A0, 0x118DF); (0x16E40, 0x16E7F); (0x1D400, 0x1D454);
   (0x1D456, 0x1D49C); (0x1D49E, 0x1D49F); (0x1D4A2, 0x1D4A2); (0x1D4A5, 0x1D4A6);
   (0x1D4A9, 0x1D4AC); (0x1D4AE, 0x1D4B9); (0x1D4BB, 0x1D4BB); (0x1D4BD, 0x1D4C3);
   (0x1D4C5, 0x1D505); (0x1D507, 0x1D50A); (0x1D50D, 0x1D514); (0x1D516, 0x1D51C);
   (0x1D51E, 0x1D539); (0x1D53B, 0x1D53E); (0x1D540, 0x1D544); (0x1D546, 0x1D546);
   (0x1D54A, 0x1D550); (0x1D552, 0x1D6A5); (0x1D6A8, 0x1D6C0); (0x1D6C2, 0x1D6DA);
   (0x1D6DC, 0x1D6FA); (0x1D6FC, 0x1D714); (0x1D716, 0x1D734); (0x1D736, 0x1D74E);
   (0x1D750, 0x1D76E); (0x1D770, 0x1D788); (0x1D78A, 0x1D7A8); (0x1D7AA, 0x1D7C2);
   (0x1D7C4, 0x1D7CB); (0x1DF00, 0x1DF09); (0x1DF0B, 0x1DF1E); (0x1E900, 0x1E943);
   (0x1F130, 0x1F149); (0x1F150, 0x1F169); (0x1F170, 0x1F189)
  ].

(** Property Case_Ignorable: marks, modifiers and punctuation inside words. *)
Definition case_ignorable_ranges : list (N * N) :=
  [
   (0x27, 0x27); (0x2E, 0x2E); (0x3A, 0x3A); (0x5E, 0x5E);
   (0x60, 0x60); (0xA8, 0xA8); (0xAD, 0xAD); (0xAF, 0xAF);
   (0xB4, 0xB4); (0xB7, 0xB8); (0x2B0, 0x36F); (0x374, 0x375);
   (0x37A, 0x37A); (0x384, 0x385); (0x387, 0x387); (0x483, 0x489);
   (0x559, 0x559); (0x55F, 0x55F); (0x591, 0x5BD); (0x5BF, 0x5BF);
   (0x5C1, 0x5C2); (0x5C4, 0x5C5); (0x5C7, 0x5C7); (0x5F4, 0x5F4);
   (0x600, 0x605); (0x610, 0x61A); (0x61C, 0x61C); (0x640, 0x640);
   (0x64B, 0x65F); (0x670, 0x670); (0x6D6, 0x6DD); (0x6DF, 0x6E8);
   (0x6EA, 0x6ED); (0x70F, 0x70F); (0x711, 0x711); (0x730, 0x74A);
   (0x7A6, 0x7B0); (0x7EB, 0x7F5); (0x7FA, 0x7FA); (0x7FD, 0x7FD);
   (0x816, 0x82D); (0x859, 0x85B); (0x888, 0x888); (0x890, 0x891);
   (0x898, 0x89F); (0x8C9, 0x902); (0x93A, 0x93A); (0x93C, 0x93C);
   (0x941, 0x948); (0x94D, 0x94D); (0x951, 0x957); (0x962, 0x963);
   (0x971, 0x971); (0x981, 0x981); (0x9BC, 0x9BC); (0x9C1, 0x9C4);
   (0x9CD, 0x9CD); (0x9E2, 0x9E3); (0x9FE, 0x9FE); (0xA01, 0xA02);
   (0xA3C, 0xA3C); (0xA41, 0xA42); (0xA47, 0xA48); (0xA4B, 0xA4D);
   (0xA51, 0xA51); (0xA70, 0xA71); (0xA75, 0xA75); (0xA81, 0xA82);
   (0xABC, 0xABC); (0xAC1, 0xAC5); (0xAC7, 0xAC8); (0xACD, 0xACD);
   (0xAE2, 0xAE3); (0xAFA, 0xAFF); (0xB01, 0xB01); (0xB3C, 0xB3C);
   (0xB3F, 0xB3F); (0xB41, 0xB44); (0xB4D, 0xB4D); (0xB55, 0xB56);
   (0xB62, 0xB63); (0xB82, 0xB82); (0xBC0, 0xBC0); (0xBCD, 0xBCD);
   (0xC00, 0xC00); (0xC04, 0xC04); (0xC3C, 0xC3C); (0xC3E, 0xC40);
   (0xC46, 0xC48); (0xC4A, 0xC4D); (0xC55, 0xC56); (0xC62, 0xC63);
   (0xC81, 0xC81); (0xCBC, 0xCBC); (0xCBF, 0xCBF); (0xCC6, 0xCC6);
   (0xCCC, 0xCCD); (0xCE2, 0xCE3); (0xD00, 0xD01); (0xD3B, 0xD3C);
   (0xD41, 0xD44); (0xD4D, 0xD4D); (0xD62, 0xD63); (0xD81, 0xD81);
   (0xDCA, 0xDCA); (0xDD2, 0xDD4); (0xDD6, 0xDD6); (0xE31, 0xE31);
   (0xE34, 0xE3A); (0xE46, 0xE4E); (0xEB1, 0xEB1); (0xEB4, 0xEBC);
   (0xEC6, 0xEC6); (0xEC8, 0xECD); (0xF18, 0xF19); (0xF35, 0xF35);
   (0xF37, 0xF37); (0xF39, 0xF39); (0xF71, 0xF7E); (0xF80, 0xF84);
   (0xF86, 0xF87); (0xF8D, 0xF97); (0xF99, 0xFBC); (0xFC6, 0xFC6);
   (0x102D, 0x1030); (0x1032, 0x1037); (0x1039, 0x103A); (0x103D, 0x103E);
   (0x1058, 0x1059); (0x105E, 0x1060); (0x1071, 0x1074); (0x1082, 0x1082);
   (0x1085, 0x1086); (0x108D, 0x108D); (0x109D, 0x109D); (0x10FC, 0x10FC);
   (0x135D, 0x135F); (0x1712, 0x1714); (0x1732, 0x1733); (0x1752, 0x1753);
   (0x1772, 0x1773); (0x17B4, 0x17B5); (0x17B7, 0x17BD); (0x17C6, 0x17C6);
   (0x17C9, 0x17D3); (0x17D7, 0x17D7); (0x17DD, 0x17DD); (0x180B, 0x180F);
   (0x1843, 0x1843); (0x1885, 0x1886); (0x18A9, 0x18A9); (0x1920, 0x1922);
   (0x1927, 0x1928); (0x1932, 0x1932); (0x1939, 0x193B); (0x1A17, 0x1A18);
   (0x1A1B, 0x1A1B); (0x1A56, 0x1A56); (0x1A58, 0x1A5E); (0x1A60, 0x1A60);
   (0x1A62, 0x1A62); (0x1A65, 0x1A6C); (0x1A73, 0x1A7C); (0x1A7F, 0x1A7F);
   (0x1AA7, 0x1AA7); (0x1AB0, 0x1ACE); (0x1B00, 0x1B03); (0x1B34, 0x1B34);
   (0x1B36, 0x1B3A); (0x1B3C, 0x1B3C); (0x1B42, 0x1B42); (0x1B6B, 0x1B73);
   (0x1B80, 0x1B81); (0x1BA2, 0x1BA5); (0x1BA8, 0x1BA9); (0x1BAB, 0x1BAD);
   (0x1BE6, 0x1BE6); (0x1BE8, 0x1BE9); (0x1BED, 0x1BED); (0x1BEF, 0x1BF1);
   (0x1C2C, 0x1C33); (0x1C36, 0x1C37); (0x1C78, 0x1C7D); (0x1CD0, 0x1CD2);
   (0x1CD4, 0x1CE0); (0x1CE2, 0x1CE8); (0x1CED, 0x1CED); (0x1CF4, 0x1CF4);
   (0x1CF8, 0x1CF9); (0x1D2C, 0x1D6A); (0x1D78, 0x1D78); (0x1D9B, 0x1DFF);
   (0x1FBD, 0x1FBD); (0x1FBF, 0x1FC1); (0x1FCD, 0x1FCF); (0x1FDD, 0x1FDF);
   (0x1FED, 0x1FEF); (0x1FFD, 0x1FFE); (0x200B, 0x200F); (0x2018, 0x2019);
   (0x2024, 0x2024); (0x2027, 0x2027); (0x202A, 0x202E); (0x2060, 0x2064);
   (0x2066, 0x206F); (0x2071, 0x2071); (0x207F, 0x207F); (0x2090, 0x209C);
   (0x20D0, 0x20F0); (0x2C7C, 0x2C7D); (0x2CEF, 0x2CF1); (0x2D6F, 0x2D6F);
   (0x2D7F, 0x2D7F); (0x2DE0, 0x2DFF); (0x2E2F, 0x2E2F); (0x3005, 0x3005);
   (0x302A, 0x302D); (0x3031, 0x3035); (0x303B, 0x303B); (0x3099, 0x309E);
   (0x30FC, 0x30FE); (0xA015, 0xA015); (0xA4F8, 0xA4FD); (0xA60C, 0xA60C);
   (0xA66F, 0xA672); (0xA674, 0xA67D); (0xA67F, 0xA67F); (0xA69C, 0xA69F);
   (0xA6F0, 0xA6F1); (0xA700, 0xA721); (0xA770, 0xA770); (0xA788, 0xA78A);
   (0xA7F2, 0xA7F4); (0xA7F8, 0xA7F9); (0xA802, 0xA802); (0xA806, 0xA806);
   (0xA80B, 0xA80B); (0xA825, 0xA826); (0xA82C, 0xA82C); (0xA8C4, 0xA8C5);
   (0xA8E0, 0xA8F1); (0xA8FF, 0xA8FF); (0xA926, 0xA92D); (0xA947, 0xA951);
   (0xA980, 0xA982); (0xA9B3, 0xA9B3); (0xA9B6, 0xA9B9); (0xA9BC, 0xA9BD);
   (0xA9CF, 0xA9CF); (0xA9E5, 0xA9E6); (0xAA29, 0xAA2E); (0xAA31, 0xAA32);
   (0xAA35, 0xAA36); (0xAA43, 0xAA43); (0xAA4C, 0xAA4C); (0xAA70, 0xAA70);
   (0xAA7C, 0xAA7C); (0xAAB0, 0xAAB0); (0xAAB2, 0xAAB4); (0xAAB7, 0xAAB8);
   (0xAABE, 0xAABF); (0xAAC1, 0xAAC1); (0xAADD, 0xAADD); (0xAAEC, 0xAAED);
   (0xAAF3, 0xAAF4); (0xAAF6, 0xAAF6); (0xAB5B, 0xAB5F); (0xAB69, 0xAB6B);
   (0xABE5, 0xABE5); (0xABE8, 0xABE8); (0xABED, 0xABED); (0xFB1E, 0xFB1E);
   (0xFBB2, 0xFBC2); (0xFE00, 0xFE0F); (0xFE13, 0xFE13); (0xFE20, 0xFE2F);
   (0xFE52, 0xFE52); (0xFE55, 0xFE55); (0xFEFF, 0xFEFF); (0xFF07, 0xFF07);
   (0xFF0E, 0xFF0E); (0xFF1A, 0xFF1A); (0xFF3E, 0xFF3E); (0xFF40, 0xFF40);
   (0xFF70, 0xFF70); (0xFF9E, 0xFF9F); (0xFFE3, 0xFFE3); (0xFFF9, 0xFFFB);
   (0x101FD, 0x101FD); (0x102E0, 0x102E0); (0x10376, 0x1037A); (0x10780, 0x10785);
   (0x10787, 0x107B0); (0x107B2, 0x107BA); (0x10A01, 0x10A03); (0x10A05, 0x10A06);
   (0x10A0C, 0x10A0F); (0x10A38, 0x10A3A); (0x10A3F, 0x10A3F); (0x10AE5, 0x10AE6);
   (0x10D24, 0x10D27); (0x10EAB, 0x10EAC); (0x10F46, 0x10F50); (0x10F82, 0x10F85);
   (0x11001, 0x11001); (0x11038, 0x11046); (0x11070, 0x11070); (0x11073, 0x11074);
   (0x1107F, 0x11081); (0x110B3, 0x110B6); (0x110B9, 0x110BA); (0x110BD, 0x110BD);
   (0x110C2, 0x110C2); (0x110CD, 0x110CD); (0x11100, 0x11102); (0x11127, 0x1112B);
   (0x1112D, 0x11134); (0x11173, 0x11173); (0x11180, 0x11181); (0x111B6, 0x111BE);
   (0x111C9, 0x111CC); (0x111CF, 0x111CF); (0x1122F, 0x11231); (0x11234, 0x11234);
   (0x11236, 0x11237); (0x1123E, 0x1123E); (0x112DF, 0x112DF); (0x112E3, 0x112EA);
   (0x11300, 0x11301); (0x1133B, 0x1133C); (0x11340, 0x11340); (0x11366, 0x1136C);
   (0x11370, 0x11374); (0x11438, 0x1143F); (0x11442, 0x11444); (0x11446, 0x11446);
   (0x1145E, 0x1145E); (0x114B3, 0x114B8); (0x114BA, 0x114BA); (0x114BF, 0x114C0);
   (0x114C2, 0x114C3); (0x115B2, 0x115B5); (0x115BC, 0x115BD); (0x115BF, 0x115C0);
   (0x115DC, 0x115DD); (0x11633, 0x1163A); (0x1163D, 0x1163D); (0x1163F, 0x11640);
   (0x116AB, 0x116AB); (0x116AD, 0x116AD); (0x116B0, 0x116B5); (0x116B7, 0x116B7);
   (0x1171D, 0x1171F); (0x11722, 0x11725); (0x11727, 0x1172B); (0x1182F, 0x11837);
   (0x11839, 0x1183A); (0x1193B, 0x1193C); (0x1193E, 0x1193E); (0x11943, 0x11943);
   (0x119D4, 0x119D7); (0x119DA, 0x119DB); (0x119E0, 0x119E0); (0x11A01, 0x11A0A);
   (0x11A33, 0x11A38); (0x11A3B, 0x11A3E); (0x11A47, 0x11A47); (0x11A51, 0x11A56);
   (0x11A59, 0x11A5B); (0x11A8A, 0x11A96); (0x11A98, 0x11A99); (0x11C30, 0x11C36);
   (0x11C38, 0x11C3D); (0x11C3F, 0x11C3F); (0x11C92, 0x11CA7); (0x11CAA, 0x11CB0);
   (0x11CB2, 0x11CB3); (0x11CB5, 0x11CB6); (0x11D31, 0x11D36); (0x11D3A, 0x11D3A);
   (0x11D3C, 0x11D3D); (0x11D3F, 0x11D45); (0x11D47, 0x11D47); (0x11D90, 0x11D91);
   (0x11D95, 0x11D95); (0x11D97, 0x11D97); (0x11EF3, 0x11EF4); (0x13430, 0x13438);
   (0x16AF0, 0x16AF4); (0x16B30, 0x16B36); (0x16B40, 0x16B43); (0x16F4F, 0x16F4F);
   (0x16F8F, 0x16F9F); (0x16FE0, 0x16FE1); (0x16FE3, 0x16FE4); (0x1AFF0, 0x1AFF3);
   (0x1AFF5, 0x1AFFB); (0x1AFFD, 0x1AFFE); (0x1BC9D, 0x1BC9E); (0x1BCA0, 0x1BCA3);
   (0x1CF00, 0x1CF2D); (0x1CF30, 0x1CF46); (0x1D167, 0x1D169); (0x1D173, 0x1D182);
   (0x1D185, 0x1D18B); (0x1D1AA, 0x1D1AD); (0x1D242, 0x1D244); (0x1DA00, 0x1DA36);
   (0x1DA3B, 0x1DA6C); (0x1DA75, 0x1DA75); (0x1DA84, 0x1DA84); (0x1DA9B, 0x1DA9F);
   (0x1DAA1, 0x1DAAF); (0x1E000, 0x1E006); (0x1E008, 0x1E018); (0x1E01B, 0x1E021);
   (0x1E023, 0x1E024); (0x1E026, 0x1E02A); (0x1E130, 0x1E13D); (0x1E2AE, 0x1E2AE);
   (0x1E2EC, 0x1E2EF); (0x1E8D0, 0x1E8D6); (0x1E944, 0x1E94B); (0x1F3FB, 0x1F3FF);
   (0xE0001, 0xE0001); (0xE0020, 0xE007F); (0xE0100, 0xE01EF)
  ].

(** The full lower-case mapping of every code point it changes. *)
Definition lower_table : list (N * list N) :=
  [
   (0x41, [0x61]); (0x42, [0x62]); (0x43, [0x63]); (0x44, [0x64]);
   (0x45, [0x65]); (0x46, [0x66]); (0x47, [0x67]); (0x48, [0x68]);
   (0x49, [0x69]); (0x4A, [0x6A]); (0x4B, [0x6B]); (0x4C, [0x6C]);
   (0x4D, [0x6D]); (0x4E, [0x6E]); (0x4F, [0x6F]); (0x50, [0x70]);
   (0x51, [0x71]); (0x52, [0x72]); (0x53, [0x73]); (0x54, [0x74]);
   (0x55, [0x75]); (0x56, [0x76]); (0x57, [0x77]); (0x58, [0x78]);
   (0x59, [0x79]); (0x5A, [0x7A]); (0xC0, [0xE0]); (0xC1, [0xE1]);
   (0xC2, [0xE2]); (0xC3, [0xE3]); (0xC4, [0xE4]); (0xC5, [0xE5]);
   (0xC6, [0xE6]); (0xC7, [0xE7]); (0xC8, [0xE8]); (0xC9, [0xE9]);
   (0xCA, [0xEA]); (0xCB, [0xEB]); (0xCC, [0xEC]); (0xCD, [0xED]);
   (0xCE, [0xEE]); (0xCF, [0xEF]); (0xD0, [0xF0]); (0xD1, [0xF1]);
   (0xD2, [0xF2]); (0xD3, [0xF3]); (0xD4, [0xF4]); (0xD5, [0xF5]);
   (0xD6, [0xF6]); (0xD8, [0xF8]); (0xD9, [0xF9]); (0xDA, [0xFA]);
   (0xDB, [0xFB]); (0xDC, [0xFC]); (0xDD, [0xFD]); (0xDE, [0xFE]);
   (0x100, [0x101]); (0x102, [0x103]); (0x104, [0x105]); (0x106, [0x107]);
   (0x108, [0x109]); (0x10A, [0x10B]); (0x10C, [0x10D]); (0x10E, [0x10F]);
   (0x110, [0x111]); (0x112, [0x113]); (0x114, [0x115]); (0x116, [0x117]);
   (0x118, [0x119]); (0x11A, [0x11B]); (0x11C, [0x11D]); (0x11E, [0x11F]);
   (0x120, [0x121]); (0x122, [0x123]); (0x124, [0x125]); (0x126, [0x127]);
   (0x128, [0x129]); (0x12A, [0x12B]); (0x12C, [0x12D]); (0x12E, [0x12F]);
   (0x130, [0x69; 0x307]); (0x132, [0x133]); (0x134, [0x135]); (0x136, [0x137]);
   (0x139, [0x13A]); (0x13B, [0x13C]); (0x13D, [0x13E]); (0x13F, [0x140]);
   (0x141, [0x142]); (0x143, [0x144]); (0x145, [0x146]); (0x147, [0x148]);
   (0x14A, [0x14B]); (0x14C, [0x14D]); (0x14E, [0x14F]); (0x150, [0x151]);
   (0x152, [0x153]); (0x154, [0x155]); (0x156, [0x157]); (0x158, [0x159]);
   (0x15A, [0x15B]); (0x15C, [0x15D]); (0x15E, [0x15F]); (0x160, [0x161]);
   (0x162, [0x163]); (0x164, [0x165]); (0x166, [0x167]); (0x168, [0x169]);
   (0x16A, [0x16B]); (0x16C, [0x16D]); (0x16E, [0x16F]); (0x170, [0x171]);
   (0x172, [0x173]); (0x174, [0x175]); (0x176, [0x177]); (0x178, [0xFF]);
   (0x179, [0x17A]); (0x17B, [0x17C]); (0x17D, [0x17E]); (0x181, [0x253]);
   (0x182, [0x183]); (0x184, [0x185]); (0x186, [0x254]); (0x187, [0x188]);
   (0x189, [0x256]); (0x18A, [0x257]); (0x18B, [0x18C]); (0x18E, [0x1DD]);
   (0x18F, [0x259]); (0x190, [0x25B]); (0x191, [0x192]); (0x193, [0x260]);
   (0x194, [0x263]); (0x196, [0x269]); (0x197, [0x268]); (0x198, [0x199]);
   (0x19C, [0x26F]); (0x19D, [0x272]); (0x19F, [0x275]); (0x1A0, [0x1A1]);
   (0x1A2, [0x1A3]); (0x1A4, [0x1A5]); (0x1A6, [0x280]); (0x1A7, [0x1A8]);
   (0x1A9, [0x283]); (0x1AC, [0x1AD]); (0x1AE, [0x288]); (0x1AF, [0x1B0]);
   (0x1B1, [0x28A]); (0x1B2, [0x28B]); (0x1B3, [0x1B4]); (0x1B5, [0x1B6]);
   (0x1B7, [0x292]); (0x1B8, [0x1B9]); (0x1BC, [0x1BD]); (0x1C4, [0x1C6]);
   (0x1C5, [0x1C6]); (0x1C7, [0x1C9]); (0x1C8, [0x1C9]); (0x1CA, [0x1CC]);
   (0x1CB, [0x1CC]); (0x1CD, [0x1CE]); (0x1CF, [0x1D0]); (0x1D1, [0x1D2]);
   (0x1D3, [0x1D4]); (0x1D5, [0x1D6]); (0x1D7, [0x1D8]); (0x1D9, [0x1DA]);
   (0x1DB, [0x1DC]); (0x1DE, [0x1DF]); (0x1E0, [0x1E1]); (0x1E2, [0x1E3]);
   (0x1E4, [0x1E5]); (0x1E6, [0x1E7]); (0x1E8, [0x1E9]); (0x1EA, [0x1EB]);
   (0x1EC, [0x1ED]); (0x1EE, [0x1EF]); (0x1F1, [0x1F3]); (0x1F2, [0x1F3]);
   (0x1F4, [0x1F5]); (0x1F6, [0x195]); (0x1F7, [0x1BF]); (0x1F8, [0x1F9]);
   (0x1FA, [0x1FB]); (0x1FC, [0x1FD]); (0x1FE, [0x1FF]); (0x200, [0x201]);
   (0x202, [0x203]); (0x204, [0x205]); (0x206, [0x207]); (0x208, [0x209]);
   (0x20A, [0x20B]); (0x20C, [0x20D]); (0x20E, [0x20F]); (0x210, [0x211]);
   (0x212, [0x213]); (0x214, [0x215]); (0x216, [0x217]); (0x218, [0x219]);
   (0x21A, [0x21B]); (0x21C, [0x21D]); (0x21E, [0x21F]); (0x220, [0x19E]);
   (0x222, [0x223]); (0x224, [0x225]); (0x226, [0x227]); (0x228, [0x229]);
   (0x22A, [0x22B]); (0x22C, [0x22D]); (0x22E, [0x22F]); (0x230, [0x231]);
   (0x232, [0x233]); (0x23A, [0x2C65]); (0x23B, [0x23C]); (0x23D, [0x19A]);
   (0x23E, [0x2C66]); (0x241, [0x242]); (0x243, [0x180]); (0x244, [0x289]);
   (0x245, [0x28C]); (0x246, [0x247]); (0x248, [0x249]); (0x24A, [0x24B]);
   (0x24C, [0x24D]); (0x24E, [0x24F]); (0x370, [0x371]); (0x372, [0x373]);
   (0x376, [0x377]); (0x37F, [0x3F3]); (0x386, [0x3AC]); (0x388, [0x3AD]);
   (0x389, [0x3AE]); (0x38A, [0x3AF]); (0x38C, [0x3CC]); (0x38E, [0x3CD]);
   (0x38F, [0x3CE]); (0x391, [0x3B1]); (0x392, [0x3B2]); (0x393, [0x3B3]);
   (0x394, [0x3B4]); (0x395, [0x3B5]); (0x396, [0x3B6]); (0x397, [0x3B7]);
   (0x398, [0x3B8]); (0x399, [0x3B9]); (0x39A, [0x3BA]); (0x39B, [0x3BB]);
   (0x39C, [0x3BC]); (0x39D, [0x3BD]); (0x39E, [0x3BE]); (0x39F, [0x3BF]);
   (0x3A0, [0x3C0]); (0x3A1, [0x3C1]); (0x3A3, [0x3C3]); (0x3A4, [0x3C4]);
   (0x3A5, [0x3C5]); (0x3A6, [0x3C6]); (0x3A7, [0x3C7]); (0x3A8, [0x3C8]);
   (0x3A9, [0x3C9]); (0x3AA, [0x3CA]); (0x3AB, [0x3CB]); (0x3CF, [0x3D7]);
   (0x3D8, [0x3D9]); (0x3DA, [0x3DB]); (0x3DC, [0x3DD]); (0x3DE, [0x3DF]);
   (0x3E0, [0x3E1]); (0x3E2, [0x3E3]); (0x3E4, [0x3E5]); (0x3E6, [0x3E7]);
   (0x3E8, [0x3E9]); (0x3EA, [0x3EB]); (0x3EC, [0x3ED]); (0x3EE, [0x3EF]);
   (0x3F4, [0x3B8]); (0x3F7, [0x3F8]); (0x3F9, [0x3F2]); (0x3FA, [0x3FB]);
   (0x3FD, [0x37B]); (0x3FE, [0x37C]); (0x3FF, [0x37D]); (0x400, [0x450]);
   (0x401, [0x451]); (0x402, [0x452]); (0x403, [0x453]); (0x404, [0x454]);
   (0x405, [0x455]); (0x406, [0x456]); (0x407, [0x457]); (0x408, [0x458]);
   (0x409, [0x459]); (0x40A, [0x45A]); (0x40B, [0x45B]); (0x40C, [0x45C]);
   (0x40D, [0x45D]); (0x40E, [0x45E]); (0x40F, [0x45F]); (0x410, [0x430]);
   (0x411, [0x431]); (0x412, [0x432]); (0x413, [0x433]); (0x414, [0x434]);
   (0x415, [0x435]); (0x416, [0x436]); (0x417, [0x437]); (0x418, [0x438]);
   (0x419, [0x439]); (0x41A, [0x43A]); (0x41B, [0x43B]); (0x41C, [0x43C]);
   (0x41D, [0x43D]); (0x41E, [0x43E]); (0x41F, [0x43F]); (0x420, [0x440]);
   (0x421, [0x441]); (0x422, [0x442]); (0x423, [0x443]); (0x424, [0x444]);
   (0x425, [0x445]); (0x426, [0x446]); (0x427, [0x447]); (0x428, [0x448]);
   (0x429, [0x449]); (0x42A, [0x44A]); (0x42B, [0x44B]); (0x42C, [0x44C]);
   (0x42D, [0x44D]); (0x42E, [0x44E]); (0x42F, [0x44F]); (0x460, [0x461]);
   (0x462, [0x463]); (0x464, [0x465]); (0x466, [0x467]); (0x468, [0x469]);
   (0x46A, [0x46B]); (0x46C, [0x46D]); (0x46E, [0x46F]); (0x470, [0x471]);
   (0x472, [0x473]); (0x474, [0x475]); (0x476, [0x477]); (0x478, [0x479]);
   (0x47A, [0x47B]); (0x47C, [0x47D]); (0x47E, [0x47F]); (0x480, [0x481]);
   (0x48A, [0x48B]); (0x48C, [0x48D]); (0x48E, [0x48F]); (0x490, [0x491]);
   (0x492, [0x493]); (0x494, [0x495]); (0x496, [0x497]); (0x498, [0x499]);
   (0x49A, [0x49B]); (0x49C, [0x49D]); (0x49E, [0x49F]); (0x4A0, [0x4A1]);
   (0x4A2, [0x4A3]); (0x4A4, [0x4A5]); (0x4A6, [0x4A7]); (0x4A8, [0x4A9]);
   (0x4AA, [0x4AB]); (0x4AC, [0x4AD]); (0x4AE, [0x4AF]); (0x4B0, [0x4B1]);
   (0x4B2, [0x4B3]); (0x4B4, [0x4B5]); (0x4B6, [0x4B7]); (0x4B8, [0x4B9]);
   (0x4BA, [0x4BB]); (0x4BC, [0x4BD]); (0x4BE, [0x4BF]); (0x4C0, [0x4CF]);
   (0x4C1, [0x4C2]); (0x4C3, [0x4C4]); (0x4C5, [0x4C6]); (0x4C7, [0x4C8]);
   (0x4C9, [0x4CA]); (0x4CB, [0x4CC]); (0x4CD, [0x4CE]); (0x4D0, [0x4D1]);
   (0x4D2, [0x4D3]); (0x4D4, [0x4D5]); (0x4D6, [0x4D7]); (0x4D8, [0x4D9]);
   (0x4DA, [0x4DB]); (0x4DC, [0x4DD]); (0x4DE, [0x4DF]); (0x4E0, [0x4E1]);
   (0x4E2, [0x4E3]); (0x4E4, [0x4E5]); (0x4E6, [0x4E7]); (0x4E8, [0x4E9]);
   (0x4EA, [0x4EB]); (0x4EC, [0x4ED]); (0x4EE, [0x4EF]); (0x4F0, [0x4F1]);
   (0x4F2, [0x4F3]); (0x4F4, [0x4F5]); (0x4F6, [0x4F7]); (0x4F8, [0x4F9]);
   (0x4FA, [0x4FB]); (0x4FC, [0x4FD]); (0x4FE, [0x4FF]); (0x500, [0x501]);
   (0x502, [0x503]); (0x504, [0x505]); (0x506, [0x507]); (0x508, [0x509]);
   (0x50A, [0x50B]); (0x50C, [0x50D]); (0x50E, [0x50F]); (0x510, [0x511]);
   (0x512, [0x513]); (0x514, [0x515]); (0x516, [0x517]); (0x518, [0x519]);
   (0x51A, [0x51B]); (0x51C, [0x51D]); (0x51E, [0x51F]); (0x520, [0x521]);
   (0x522, [0x523]); (0x524, [0x525]); (0x526, [0x527]); (0x528, [0x529]);
   (0x52A, [0x52B]); (0x52C, [0x52D]); (0x52E, [0x52F]); (0x531, [0x561]);
   (0x532, [0x562]); (0x533, [0x563]); (0x534, [0x564]); (0x535, [0x565]);
   (0x536, [0x566]); (0x537, [0x567]); (0x538, [0x568]); (0x539, [0x569]);
   (0x53A, [0x56A]); (0x53B, [0x56B]); (0x53C, [0x56C]); (0x53D, [0x56D]);
   (0x53E, [0x56E]); (0x53F, [0x56F]); (0x540, [0x570]); (0x541, [0x571]);
   (0x542, [0x572]); (0x543, [0x573]); (0x544, [0x574]); (0x545, [0x575]);
   (0x546, [0x576]); (0x547, [0x577]); (0x548, [0x578]); (0x549, [0x579]);
   (0x54A, [0x57A]); (0x54B, [0x57B]); (0x54C, [0x57C]); (0x54D, [0x57D]);
   (0x54E, [0x57E]); (0x54F, [0x57F]); (0x550, [0x580]); (0x551, [0x581]);
   (0x552, [0x582]); (0x553, [0x583]); (0x554, [0x584]); (0x555, [0x585]);
   (0x556, [0x586]); (0x10A0, [0x2D00]); (0x10A1, [0x2D01]); (0x10A2, [0x2D02]);
   (0x10A3, [0x2D03]); (0x10A4, [0x2D04]); (0x10A5, [0x2D05]); (0x10A6, [0x2D06]);
   (0x10A7, [0x2D07]); (0x10A8, [0x2D08]); (0x10A9, [0x2D09]); (0x10AA, [0x2D0A]);
   (0x10AB, [0x2D0B]); (0x10AC, [0x2D0C]); (0x10AD, [0x2D0D]); (0x10AE, [0x2D0E]);
   (0x10AF, [0x2D0F]); (0x10B0, [0x2D10]); (0x10B1, [0x2D11]); (0x10B2, [0x2D12]);
   (0x10B3, [0x2D13]); (0x10B4, [0x2D14]); (0x10B5, [0x2D15]); (0x10B6, [0x2D16]);
   (0x10B7, [0x2D17]); (0x10B8, [0x2D18]); (0x10B9, [0x2D19]); (0x10BA, [0x2D1A]);
   (0x10BB, [0x2D1B]); (0x10BC, [0x2D1C]); (0x10BD, [0x2D1D]); (0x10BE, [0x2D1E]);
   (0x10BF, [0x2D1F]); (0x10C0, [0x2D20]); (0x10C1, [0x2D21]); (0x10C2, [0x2D22]);
   (0x10C3, [0x2D23]); (0x10C4, [0x2D24]); (0x10C5, [0x2D25]); (0x10C7, [0x2D27]);
   (0x10CD, [0x2D2D]); (0x13A0, [0xAB70]); (0x13A1, [0xAB71]); (0x13A2, [0xAB72]);
   (0x13A3, [0xAB73]); (0x13A4, [0xAB74]); (0x13A5, [0xAB75]); (0x13A6, [0xAB76]);
   (0x13A7, [0xAB77]); (0x13A8, [0xAB78]); (0x13A9, [0xAB79]); (0x13AA, [0xAB7A]);
   (0x13AB, [0xAB7B]); (0x13AC, [0xAB7C]); (0x13AD, [0xAB7D]); (0x13AE, [0xAB7E]);
   (0x13AF, [0xAB7F]); (0x13B0, [0xAB80]); (0x13B1, [0xAB81]); (0x13B2, [0xAB82]);
   (0x13B3, [0xAB83]); (0x13B4, [0xAB84]); (0x13B5, [0xAB85]); (0x13B6, [0xAB86]);
   (0x13B7, [0xAB87]); (0x13B8, [0xAB88]); (0x13B9, [0xAB89]); (0x13BA, [0xAB8A]);
   (0x13BB, [0xAB8B]); (0x13BC, [0xAB8C]); (0x13BD, [0xAB8D]); (0x13BE, [0xAB8E]);
   (0x13BF, [0xAB8F]); (0x13C0, [0xAB90]); (0x13C1, [0xAB91]); (0x13C2, [0xAB92]);
   (0x13C3, [0xAB93]); (0x13C4, [0xAB94]); (0x13C5, [0xAB95]); (0x13C6, [0xAB96]);
   (0x13C7, [0xAB97]); (0x13C8, [0xAB98]); (0x13C9, [0xAB99]); (0x13CA, [0xAB9A]);
   (0x13CB, [0xAB9B]); (0x13CC, [0xAB9C]); (0x13CD, [0xAB9D]); (0x13CE, [0xAB9E]);
   (0x13CF, [0xAB9F]); (0x13D0, [0xABA0]); (0x13D1, [0xABA1]); (0x13D2, [0xABA2]);
   (0x13D3, [0xABA3]); (0x13D4, [0xABA4]); (0x13D5, [0xABA5]); (0x13D6, [0xABA6]);
   (0x13D7, [0xABA7]); (0x13D8, [0xABA8]); (0x13D9, [0xABA9]); (0x13DA, [0xABAA]);
   (0x13DB, [0xABAB]); (0x13DC, [0xABAC]); (0x13DD, [0xABAD]); (0x13DE, [0xABAE]);
   (0x13DF, [0xABAF]); (0x13E0, [0xABB0]); (0x13E1, [0xABB1]); (0x13E2, [0xABB2]);
   (0x13E3, [0xABB3]); (0x13E4, [0xABB4]); (0x13E5, [0xABB5]); (0x13E6, [0xABB6]);
   (0x13E7, [0xABB7]); (0x13E8, [0xABB8]); (0x13E9, [0xABB9]); (0x13EA, [0xABBA]);
   (0x13EB, [0xABBB]); (0x13EC, [0xABBC]); (0x13ED, [0xABBD]); (0x13EE, [0xABBE]);
   (0x13EF, [0xABBF]); (0x13F0, [0x13F8]); (0x13F1, [0x13F9]); (0x13F2, [0x13FA]);
   (0x13F3, [0x13FB]); (0x13F4, [0x13FC]); (0x13F5, [0x13FD]); (0x1C90, [0x10D0]);
   (0x1C91, [0x10D1]); (0x1C92, [0x10D2]); (0x1C93, [0x10D3]); (0x1C94, [0x10D4]);
   (0x1C95, [0x10D5]); (0x1C96, [0x10D6]); (0x1C97, [0x10D7]); (0x1C98, [0x10D8]);
   (0x1C99, [0x10D9]); (0x1C9A, [0x10DA]); (0x1C9B, [0x10DB]); (0x1C9C, [0x10DC]);
   (0x1C9D, [0x10DD]); (0x1C9E, [0x10DE]); (0x1C9F, [0x10DF]); (0x1CA0, [0x10E0]);
   (0x1CA1, [0x10E1]); (0x1CA2, [0x10E2]); (0x1CA3, [0x10E3]); (0x1CA4, [0x10E4]);
   (0x1CA5, [0x10E5]); (0x1CA6, [0x10E6]); (0x1CA7, [0x10E7]); (0x1CA8, [0x10E8]);
   (0x1CA9, [0x10E9]); (0x1CAA, [0x10EA]); (0x1CAB, [0x10EB]); (0x1CAC, [0x10EC]);
   (0x1CAD, [0x10ED]); (0x1CAE, [0x10EE]); (0x1CAF, [0x10EF]); (0x1CB0, [0x10F0]);
   (0x1CB1, [0x10F1]); (0x1CB2, [0x10F2]); (0x1CB3, [0x10F3]); (0x1CB4, [0x10F4]);
   (0x1CB5, [0x10F5]); (0x1CB6, [0x10F6]); (0x1CB7, [0x10F7]); (0x1CB8, [0x10F8]);
   (0x1CB9, [0x10F9]); (0x1CBA, [0x10FA]); (0x1CBD, [0x10FD]); (0x1CBE, [0x10FE]);
   (0x1CBF, [0x10FF]); (0x1E00, [0x1E01]); (0x1E02, [0x1E03]); (0x1E04, [0x1E05]);
   (0x1E06, [0x1E07]); (0x1E08, [0x1E09]); (0x1E0A, [0x1E0B]); (0x1E0C, [0x1E0D]);
   (0x1E0E, [0x1E0F]); (0x1E10, [0x1E11]); (0x1E12, [0x1E13]); (0x1E14, [0x1E15]);
   (0x1E16, [0x1E17]); (0x1E18, [0x1E19]); (0x1E1A, [0x1E1B]); (0x1E1C, [0x1E1D]);
   (0x1E1E, [0x1E1F]); (0x1E20, [0x1E21]); (0x1E22, [0x1E23]); (0x1E24, [0x1E25]);
   (0x1E26, [0x1E27]); (0x1E28, [0x1E29]); (0x1E2A, [0x1E2B]); (0x1E2C, [0x1E2D]);
   (0x1E2E, [0x1E2F]); (0x1E30, [0x1E31]); (0x1E32, [0x1E33]); (0x1E34, [0x1E35]);
   (0x1E36, [0x1E37]); (0x1E38, [0x1E39]); (0x1E3A, [0x1E3B]); (0x1E3C, [0x1E3D]);
   (0x1E3E, [0x1E3F]); (0x1E40, [0x1E41]); (0x1E42, [0x1E43]); (0x1E44, [0x1E45]);
   (0x1E46, [0x1E47]); (0x1E48, [0x1E49]); (0x1E4A, [0x1E4B]); (0x1E4C, [0x1E4D]);
   (0x1E4E, [0x1E4F]); (0x1E50, [0x1E51]); (0x1E52, [0x1E53]); (0x1E54, [0x1E55]);
   (0x1E56, [0x1E57]); (0x1E58, [0x1E59]); (0x1E5A, [0x1E5B]); (0x1E5C, [0x1E5D]);
   (0x1E5E, [0x1E5F]); (0x1E60, [0x1E61]); (0x1E62, [0x1E63]); (0x1E64, [0x1E65]);
   (0x1E66, [0x1E67]); (0x1E68, [0x1E69]); (0x1E6A, [0x1E6B]); (0x1E6C, [0x1E6D]);
   (0x1E6E, [0x1E6F]); (0x1E70, [0x1E71]); (0x1E72, [0x1E73]); (0x1E74, [0x1E75]);
   (0x1E76, [0x1E77]); (0x1E78, [0x1E79]); (0x1E7A, [0x1E7B]); (0x1E7C, [0x1E7D]);
   (0x1E7E, [0x1E7F]); (0x1E80, [0x1E81]); (0x1E82, [0x1E83]); (0x1E84, [0x1E85]);
   (0x1E86, [0x1E87]); (0x1E88, [0x1E89]); (0x1E8A, [0x1E8B]); (0x1E8C, [0x1E8D]);
   (0x1E8E, [0x1E8F]); (0x1E90, [0x1E91]); (0x1E92, [0x1E93]); (0x1E94, [0x1E95]);
   (0x1E9E, [0xDF]); (0x1EA0, [0x1EA1]); (0x1EA2, [0x1EA3]); (0x1EA4, [0x1EA5]);
   (0x1EA6, [0x1EA7]); (0x1EA8, [0x1EA9]); (0x1EAA, [0x1EAB]); (0x1EAC, [0x1EAD]);
   (0x1EAE, [0x1EAF]); (0x1EB0, [0x1EB1]); (0x1EB2, [0x1EB3]); (0x1EB4, [0x1EB5]);
   (0x1EB6, [0x1EB7]); (0x1EB8, [0x1EB9]); (0x1EBA, [0x1EBB]); (0x1EBC, [0x1EBD]);
   (0x1EBE, [0x1EBF]); (0x1EC0, [0x1EC1]); (0x1EC2, [0x1EC3]); (0x1EC4, [0x1EC5]);
   (0x1EC6, [0x1EC7]); (0x1EC8, [0x1EC9]); (0x1ECA, [0x1ECB]); (0x1ECC, [0x1ECD]);
   (0x1ECE, [0x1ECF]); (0x1ED0, [0x1ED1]); (0x1ED2, [0x1ED3]); (0x1ED4, [0x1ED5]);
   (0x1ED6, [0x1ED7]); (0x1ED8, [0x1ED9]); (0x1EDA, [0x1EDB]); (0x1EDC, [0x1EDD]);
   (0x1EDE, [0x1EDF]); (0x1EE0, [0x1EE1]); (0x1EE2, [0x1EE3]); (0x1EE4, [0x1EE5]);
   (0x1EE6, [0x1EE7]); (0x1EE8, [0x1EE9]); (0x1EEA, [0x1EEB]); (0x1EEC, [0x1EED]);
   (0x1EEE, [0x1EEF]); (0x1EF0, [0x1EF1]); (0x1EF2, [0x1EF3]); (0x1EF4, [0x1EF5]);
   (0x1EF6, [0x1EF7]); (0x1EF8, [0x1EF9]); (0x1EFA, [0x1EFB]); (0x1EFC, [0x1EFD]);
   (0x1EFE, [0x1EFF]); (0x1F08, [0x1F00]); (0x1F09, [0x1F01]); (0x1F0A, [0x1F02]);
   (0x1F0B, [0x1F03]); (0x1F0C, [0x1F04]); (0x1F0D, [0x1F05]); (0x1F0E, [0x1F06]);
   (0x1F0F, [0x1F07]); (0x1F18, [0x1F10]); (0x1F19, [0x1F11]); (0x1F1A, [0x1F12]);
   (0x1F1B, [0x1F13]); (0x1F1C, [0x1F14]); (0x1F1D, [0x1F15]); (0x1F28, [0x1F20]);
   (0x1F29, [0x1F21]); (0x1F2A, [0x1F22]); (0x1F2B, [0x1F23]); (0x1F2C, [0x1F24]);
   (0x1F2D, [0x1F25]); (0x1F2E, [0x1F26]); (0x1F2F, [0x1F27]); (0x1F38, [0x1F30]);
   (0x1F39, [0x1F31]); (0x1F3A, [0x1F32]); (0x1F3B, [0x1F33]); (0x1F3C, [0x1F34]);
   (0x1F3D, [0x1F35]); (0x1F3E, [0x1F36]); (0x1F3F, [0x1F37]); (0x1F48, [0x1F40]);
   (0x1F49, [0x1F41]); (0x1F4A, [0x1F42]); (0x1F4B, [0x1F43]); (0x1F4C, [0x1F44]);
   (0x1F4D, [0x1F45]); (0x1F59, [0x1F51]); (0x1F5B, [0x1F53]); (0x1F5D, [0x1F55]);
   (0x1F5F, [0x1F57]); (0x1F68, [0x1F60]); (0x1F69, [0x1F61]); (0x1F6A, [0x1F62]);
   (0x1F6B, [0x1F63]); (0x1F6C, [0x1F64]); (0x1F6D, [0x1F65]); (0x1F6E, [0x1F66]);
   (0x1F6F, [0x1F67]); (0x1F88, [0x1F80]); (0x1F89, [0x1F81]); (0x1F8A, [0x1F82]);
   (0x1F8B, [0x1F83]); (0x1F8C, [0x1F84]); (0x1F8D, [0x1F85]); (0x1F8E, [0x1F86]);
   (0x1F8F, [0x1F87]); (0x1F98, [0x1F90]); (0x1F99, [0x1F91]); (0x1F9A, [0x1F92]);
   (0x1F9B, [0x1F93]); (0x1F9C, [0x1F94]); (0x1F9D, [0x1F95]); (0x1F9E, [0x1F96]);
   (0x1F9F, [0x1F97]); (0x1FA8, [0x1FA0]); (0x1FA9, [0x1FA1]); (0x1FAA, [0x1FA2]);
   (0x1FAB, [0x1FA3]); (0x1FAC, [0x1FA4]); (0x1FAD, [0x1FA5]); (0x1FAE, [0x1FA6]);
   (0x1FAF, [0x1FA7]); (0x1FB8, [0x1FB0]); (0x1FB9, [0x1FB1]); (0x1FBA, [0x1F70]);
   (0x1FBB, [0x1F71]); (0x1FBC, [0x1FB3]); (0x1FC8, [0x1F72]); (0x1FC9, [0x1F73]);
   (0x1FCA, [0x1F74]); (0x1FCB, [0x1F75]); (0x1FCC, [0x1FC3]); (0x1FD8, [0x1FD0]);
   (0x1FD9, [0x1FD1]); (0x1FDA, [0x1F76]); (0x1FDB, [0x1F77]); (0x1FE8, [0x1FE0]);
   (0x1FE9, [0x1FE1]); (0x1FEA, [0x1F7A]); (0x1FEB, [0x1F7B]); (0x1FEC, [0x1FE5]);
   (0x1FF8, [0x1F78]); (0x1FF9, [0x1F79]); (0x1FFA, [0x1F7C]); (0x1FFB, [0x1F7D]);
   (0x1FFC, [0x1FF3]); (0x2126, [0x3C9]); (0x212A, [0x6B]); (0x212B, [0xE5]);
   (0x2132, [0x214E]); (0x2160, [0x2170]); (0x2161, [0x2171]); (0x2162, [0x2172]);
   (0x2163, [0x2173]); (0x2164, [0x2174]); (0x2165, [0x2175]); (0x2166, [0x2176]);
   (0x2167, [0x2177]); (0x2168, [0x2178]); (0x2169, [0x2179]); (0x216A, [0x217A]);
   (0x216B, [0x217B]); (0x216C, [0x217C]); (0x216D, [0x217D]); (0x216E, [0x217E]);
   (0x216F, [0x217F]); (0x2183, [0x2184]); (0x24B6, [0x24D0]); (0x24B7, [0x24D1]);
   (0x24B8, [0x24D2]); (0x24B9, [0x24D3]); (0x24BA, [0x24D4]); (0x24BB, [0x24D5]);
   (0x24BC, [0x24D6]); (0x24BD, [0x24D7]); (0x24BE, [0x24D8]); (0x24BF, [0x24D9]);
   (0x24C0, [0x24DA]); (0x24C1, [0x24DB]); (0x24C2, [0x24DC]); (0x24C3, [0x24DD]);
   (0x24C4, [0x24DE]); (0x24C5, [0x24DF]); (0x24C6, [0x24E0]); (0x24C7, [0x24E1]);
   (0x24C8, [0x24E2]); (0x24C9, [0x24E3]); (0x24CA, [0x24E4]); (0x24CB, [0x24E5]);
   (0x24CC, [0x24E6]); (0x24CD, [0x24E7]); (0x24CE, [0x24E8]); (0x24CF, [0x24E9]);
   (0x2C00, [0x2C30]); (0x2C01, [0x2C31]); (0x2C02, [0x2C32]); (0x2C03, [0x2C33]);
   (0x2C04, [0x2C34]); (0x2C05, [0x2C35]); (0x2C06, [0x2C36]); (0x2C07, [0x2C37]);
   (0x2C08, [0x2C38]); (0x2C09, [0x2C39]); (0x2C0A, [0x2C3A]); (0x2C0B, [0x2C3B]);
   (0x2C0C, [0x2C3C]); (0x2C0D, [0x2C3D]); (0x2C0E, [0x2C3E]); (0x2C0F, [0x2C3F]);
   (0x2C10, [0x2C40]); (0x2C11, [0x2C41]); (0x2C12, [0x2C42]); (0x2C13, [0x2C43]);
   (0x2C14, [0x2C44]); (0x2C15, [0x2C45]); (0x2C16, [0x2C46]); (0x2C17, [0x2C47]);
   (0x2C18, [0x2C48]); (0x2C19, [0x2C49]); (0x2C1A, [0x2C4A]); (0x2C1B, [0x2C4B]);
   (0x2C1C, [0x2C4C]); (0x2C1D, [0x2C4D]); (0x2C1E, [0x2C4E]); (0x2C1F, [0x2C4F]);
   (0x2C20, [0x2C50]); (0x2C21, [0x2C51]); (0x2C22, [0x2C52]); (0x2C23, [0x2C53]);
   (0x2C24, [0x2C54]); (0x2C25, [0x2C55]); (0x2C26, [0x2C56]); (0x2C27, [0x2C57]);
   (0x2C28, [0x2C58]); (0x2C29, [0x2C59]); (0x2C2A, [0x2C5A]); (0x2C2B, [0x2C5B]);
   (0x2C2C, [0x2C5C]); (0x2C2D, [0x2C5D]); (0x2C2E, [0x2C5E]); (0x2C2F, [0x2C5F]);
   (0x2C60, [0x2C61]); (0x2C62, [0x26B]); (0x2C63, [0x1D7D]); (0x2C64, [0x27D]);
   (0x2C67, [0x2C68]); (0x2C69, [0x2C6A]); (0x2C6B, [0x2C6C]); (0x2C6D, [0x251]);
   (0x2C6E, [0x271]); (0x2C6F, [0x250]); (0x2C70, [0x252]); (0x2C72, [0x2C73]);
   (0x2C75, [0x2C76]); (0x2C7E, [0x23F]); (0x2C7F, [0x240]); (0x2C80, [0x2C81]);
   (0x2C82, [0x2C83]); (0x2C84, [0x2C85]); (0x2C86, [0x2C87]); (0x2C88, [0x2C89]);
   (0x2C8A, [0x2C8B]); (0x2C8C, [0x2C8D]); (0x2C8E, [0x2C8F]); (0x2C90, [0x2C91]);
   (0x2C92, [0x2C93]); (0x2C94, [0x2C95]); (0x2C96, [0x2C97]); (0x2C98, [0x2C99]);
   (0x2C9A, [0x2C9B]); (0x2C9C, [0x2C9D]); (0x2C9E, [0x2C9F]); (0x2CA0, [0x2CA1]);
   (0x2CA2, [0x2CA3]); (0x2CA4, [0x2CA5]); (0x2CA6, [0x2CA7]); (0x2CA8, [0x2CA9]);
   (0x2CAA, [0x2CAB]); (0x2CAC, [0x2CAD]); (0x2CAE, [0x2CAF]); (0x2CB0, [0x2CB1]);
   (0x2CB2, [0x2CB3]); (0x2CB4, [0x2CB5]); (0x2CB6, [0x2CB7]); (0x2CB8, [0x2CB9]);
   (0x2CBA, [0x2CBB]); (0x2CBC, [0x2CBD]); (0x2CBE, [0x2CBF]); (0x2CC0, [0x2CC1]);
   (0x2CC2, [0x2CC3]); (0x2CC4, [0x2CC5]); (0x2CC6, [0x2CC7]); (0x2CC8, [0x2CC9]);
   (0x2CCA, [0x2CCB]); (0x2CCC, [0x2CCD]); (0x2CCE, [0x2CCF]); (0x2CD0, [0x2CD1]);
   (0x2CD2, [0x2CD3]); (0x2CD4, [0x2CD5]); (0x2CD6, [0x2CD7]); (0x2CD8, [0x2CD9]);
   (0x2CDA, [0x2CDB]); (0x2CDC, [0x2CDD]); (0x2CDE, [0x2CDF]); (0x2CE0, [0x2CE1]);
   (0x2CE2, [0x2CE3]); (0x2CEB, [0x2CEC]); (0x2CED, [0x2CEE]); (0x2CF2, [0x2CF3]);
   (0xA640, [0xA641]); (0xA642, [0xA643]); (0xA644, [0xA645]); (0xA646, [0xA647]);
   (0xA648, [0xA649]); (0xA64A, [0xA64B]); (0xA64C, [0xA64D]); (0xA64E, [0xA64F]);
   (0xA650, [0xA651]); (0xA652, [0xA653]); (0xA654, [0xA655]); (0xA656, [0xA657]);
   (0xA658, [0xA659]); (0xA65A, [0xA65B]); (0xA65C, [0xA65D]); (0xA65E, [0xA65F]);
   (0xA660, [0xA661]); (0xA662, [0xA663]); (0xA664, [0xA665]); (0xA666, [0xA667]);
   (0xA668, [0xA669]); (0xA66A, [0xA66B]); (0xA66C, [0xA66D]); (0xA680, [0xA681]);
   (0xA682, [0xA683]); (0xA684, [0xA685]); (0xA686, [0xA687]); (0xA688, [0xA689]);
   (0xA68A, [0xA68B]); (0xA68C, [0xA68D]); (0xA68E, [0xA68F]); (0xA690, [0xA691]);
   (0xA692, [0xA693]); (0xA694, [0xA695]); (0xA696, [0xA697]); (0xA698, [0xA699]);
   (0xA69A, [0xA69B]); (0xA722, [0xA723]); (0xA724, [0xA725]); (0xA726, [0xA727]);
   (0xA728, [0xA729]); (0xA72A, [0xA72B]); (0xA72C, [0xA72D]); (0xA72E, [0xA72F]);
   (0xA732, [0xA733]); (0xA734, [0xA735]); (0xA736, [0xA737]); (0xA738, [0xA739]);
   (0xA73A, [0xA73B]); (0xA73C, [0xA73D]); (0xA73E, [0xA73F]); (0xA740, [0xA741]);
   (0xA742, [0xA743]); (0xA744, [0xA745]); (0xA746, [0xA747]); (0xA748, [0xA749]);
   (0xA74A, [0xA74B]); (0xA74C, [0xA74D]); (0xA74E, [0xA74F]); (0xA750, [0xA751]);
   (0xA752, [0xA753]); (0xA754, [0xA755]); (0xA756, [0xA757]); (0xA758, [0xA759]);
   (0xA75A, [0xA75B]); (0xA75C, [0xA75D]); (0xA75E, [0xA75F]); (0xA760, [0xA761]);
   (0xA762, [0xA763]); (0xA764, [0xA765]); (0xA766, [0xA767]); (0xA768, [0xA769]);
   (0xA76A, [0xA76B]); (0xA76C, [0xA76D]); (0xA76E, [0xA76F]); (0xA779, [0xA77A]);
   (0xA77B, [0xA77C]); (0xA77D, [0x1D79]); (0xA77E, [0xA77F]); (0xA780, [0xA781]);
   (0xA782, [0xA783]); (0xA784, [0xA785]); (0xA786, [0xA787]); (0xA78B, [0xA78C]);
   (0xA78D, [0x265]); (0xA790, [0xA791]); (0xA792, [0xA793]); (0xA796, [0xA797]);
   (0xA798, [0xA799]); (0xA79A, [0xA79B]); (0xA79C, [0xA79D]); (0xA79E, [0xA79F]);
   (0xA7A0, [0xA7A1]); (0xA7A2, [0xA7A3]); (0xA7A4, [0xA7A5]); (0xA7A6, [0xA7A7]);
   (0xA7A8, [0xA7A9]); (0xA7AA, [0x266]); (0xA7AB, [0x25C]); (0xA7AC, [0x261]);
   (0xA7AD, [0x26C]); (0xA7AE, [0x26A]); (0xA7B0, [0x29E]); (0xA7B1, [0x287]);
   (0xA7B2, [0x29D]); (0xA7B3, [0xAB53]); (0xA7B4, [0xA7B5]); (0xA7B6, [0xA7B7]);
   (0xA7B8, [0xA7B9]); (0xA7BA, [0xA7BB]); (0xA7BC, [0xA7BD]); (0xA7BE, [0xA7BF]);
   (0xA7C0, [0xA7C1]); (0xA7C2, [0xA7C3]); (0xA7C4, [0xA794]); (0xA7C5, [0x282]);
   (0xA7C6, [0x1D8E]); (0xA7C7, [0xA7C8]); (0xA7C9, [0xA7CA]); (0xA7D0, [0xA7D1]);
   (0xA7D6, [0xA7D7]); (0xA7D8, [0xA7D9]); (0xA7F5, [0xA7F6]); (0xFF21, [0xFF41]);
   (0xFF22, [0xFF42]); (0xFF23, [0xFF43]); (0xFF24, [0xFF44]); (0xFF25, [0xFF45]);
   (0xFF26, [0xFF46]); (0xFF27, [0xFF47]); (0xFF28, [0xFF48]); (0xFF29, [0xFF49]);
   (0xFF2A, [0xFF4A]); (0xFF2B, [0xFF4B]); (0xFF2C, [0xFF4C]); (0xFF2D, [0xFF4D]);
   (0xFF2E, [0xFF4E]); (0xFF2F, [0xFF4F]); (0xFF30, [0xFF50]); (0xFF31, [0xFF51]);
   (0xFF32, [0xFF52]); (0xFF33, [0xFF53]); (0xFF34, [0xFF54]); (0xFF35, [0xFF55]);
   (0xFF36, [0xFF56]); (0xFF37, [0xFF57]); (0xFF38, [0xFF58]); (0xFF39, [0xFF59]);
   (0xFF3A, [0xFF5A]); (0x10400, [0x10428]); (0x10401, [0x10429]); (0x10402, [0x1042A]);
   (0x10403, [0x1042B]); (0x10404, [0x1042C]); (0x10405, [0x1042D]); (0x10406, [0x1042E]);
   (0x10407, [0x1042F]); (0x10408, [0x10430]); (0x10409, [0x10431]); (0x1040A, [0x10432]);
   (0x1040B, [0x10433]); (0x1040C, [0x10434]); (0x1040D, [0x10435]); (0x1040E, [0x10436]);
   (0x1040F, [0x10437]); (0x10410, [0x10438]); (0x10411, [0x10439]); (0x10412, [0x1043A]);
   (0x10413, [0x1043B]); (0x10414, [0x1043C]); (0x10415, [0x1043D]); (0x10416, [0x1043E]);
   (0x10417, [0x1043F]); (0x10418, [0x10440]); (0x10419, [0x10441]); (0x1041A, [0x10442]);
   (0x1041B, [0x10443]); (0x1041C, [0x10444]); (0x1041D, [0x10445]); (0x1041E, [0x10446]);
   (0x1041F, [0x10447]); (0x10420, [0x10448]); (0x10421, [0x10449]); (0x10422, [0x1044A]);
   (0x10423, [0x1044B]); (0x10424, [0x1044C]); (0x10425, [0x1044D]); (0x10426, [0x1044E]);
   (0x10427, [0x1044F]); (0x104B0, [0x104D8]); (0x104B1, [0x104D9]); (0x104B2, [0x104DA]);
   (0x104B3, [0x104DB]); (0x104B4, [0x104DC]); (0x104B5, [0x104DD]); (0x104B6, [0x104DE]);
   (0x104B7, [0x104DF]); (0x104B8, [0x104E0]); (0x104B9, [0x104E1]); (0x104BA, [0x104E2]);
   (0x104BB, [0x104E3]); (0x104BC, [0x104E4]); (0x104BD, [0x104E5]); (0x104BE, [0x104E6]);
   (0x104BF, [0x104E7]); (0x104C0, [0x104E8]); (0x104C1, [0x104E9]); (0x104C2, [0x104EA]);
   (0x104C3, [0x104EB]); (0x104C4, [0x104EC]); (0x104C5, [0x104ED]); (0x104C6, [0x104EE]);
   (0x104C7, [0x104EF]); (0x104C8, [0x104F0]); (0x104C9, [0x104F1]); (0x104CA, [0x104F2]);
   (0x104CB, [0x104F3]); (0x104CC, [0x104F4]); (0x104CD, [0x104F5]); (0x104CE, [0x104F6]);
   (0x104CF, [0x104F7]); (0x104D0, [0x104F8]); (0x104D1, [0x104F9]); (0x104D2, [0x104FA]);
   (0x104D3, [0x104FB]); (0x10570, [0x10597]); (0x10571, [0x10598]); (0x10572, [0x10599]);
   (0x10573, [0x1059A]); (0x10574, [0x1059B]); (0x10575, [0x1059C]); (0x10576, [0x1059D]);
   (0x10577, [0x1059E]); (0x10578, [0x1059F]); (0x10579, [0x105A0]); (0x1057A, [0x105A1]);
   (0x1057C, [0x105A3]); (0x1057D, [0x105A4]); (0x1057E, [0x105A5]); (0x1057F, [0x105A6]);
   (0x10580, [0x105A7]); (0x10581, [0x105A8]); (0x10582, [0x105A9]); (0x10583, [0x105AA]);
   (0x10584, [0x105AB]); (0x10585, [0x105AC]); (0x10586, [0x105AD]); (0x10587, [0x105AE]);
   (0x10588, [0x105AF]); (0x10589, [0x105B0]); (0x1058A, [0x105B1]); (0x1058C, [0x105B3]);
   (0x1058D, [0x105B4]); (0x1058E, [0x105B5]); (0x1058F, [0x105B6]); (0x10590, [0x105B7]);
   (0x10591, [0x105B8]); (0x10592, [0x105B9]); (0x10594, [0x105BB]); (0x10595, [0x105BC]);
   (0x10C80, [0x10CC0]); (0x10C81, [0x10CC1]); (0x10C82, [0x10CC2]); (0x10C83, [0x10CC3]);
   (0x10C84, [0x10CC4]); (0x10C85, [0x10CC5]); (0x10C86, [0x10CC6]); (0x10C87, [0x10CC7]);
   (0x10C88, [0x10CC8]); (0x10C89, [0x10CC9]); (0x10C8A, [0x10CCA]); (0x10C8B, [0x10CCB]);
   (0x10C8C, [0x10CCC]); (0x10C8D, [0x10CCD]); (0x10C8E, [0x10CCE]); (0x10C8F, [0x10CCF]);
   (0x10C90, [0x10CD0]); (0x10C91, [0x10CD1]); (0x10C92, [0x10CD2]); (0x10C93, [0x10CD3]);
   (0x10C94, [0x10CD4]); (0x10C95, [0x10CD5]); (0x10C96, [0x10CD6]); (0x10C97, [0x10CD7]);
   (0x10C98, [0x10CD8]); (0x10C99, [0x10CD9]); (0x10C9A, [0x10CDA]); (0x10C9B, [0x10CDB]);
   (0x10C9C, [0x10CDC]); (0x10C9D, [0x10CDD]); (0x10C9E, [0x10CDE]); (0x10C9F, [0x10CDF]);
   (0x10CA0, [0x10CE0]); (0x10CA1, [0x10CE1]); (0x10CA2, [0x10CE2]); (0x10CA3, [0x10CE3]);
   (0x10CA4, [0x10CE4]); (0x10CA5, [0x10CE5]); (0x10CA6, [0x10CE6]); (0x10CA7, [0x10CE7]);
   (0x10CA8, [0x10CE8]); (0x10CA9, [0x10CE9]); (0x10CAA, [0x10CEA]); (0x10CAB, [0x10CEB]);
   (0x10CAC, [0x10CEC]); (0x10CAD, [0x10CED]); (0x10CAE, [0x10CEE]); (0x10CAF, [0x10CEF]);
   (0x10CB0, [0x10CF0]); (0x10CB1, [0x10CF1]); (0x10CB2, [0x10CF2]); (0x118A0, [0x118C0]);
   (0x118A1, [0x118C1]); (0x118A2, [0x118C2]); (0x118A3, [0x118C3]); (0x118A4, [0x118C4]);
   (0x118A5, [0x118C5]); (0x118A6, [0x118C6]); (0x118A7, [0x118C7]); (0x118A8, [0x118C8]);
   (0x118A9, [0x118C9]); (0x118AA, [0x118CA]); (0x118AB, [0x118CB]); (0x118AC, [0x118CC]);
   (0x118AD, [0x118CD]); (0x118AE, [0x118CE]); (0x118AF, [0x118CF]); (0x118B0, [0x118D0]);
   (0x118B1, [0x118D1]); (0x118B2, [0x118D2]); (0x118B3, [0x118D3]); (0x118B4, [0x118D4]);
   (0x118B5, [0x118D5]); (0x118B6, [0x118D6]); (0x118B7, [0x118D7]); (0x118B8, [0x118D8]);
   (0x118B9, [0x118D9]); (0x118BA, [0x118DA]); (0x118BB, [0x118DB]); (0x118BC, [0x118DC]);
   (0x118BD, [0x118DD]); (0x118BE, [0x118DE]); (0x118BF, [0x118DF]); (0x16E40, [0x16E60]);
   (0x16E41, [0x16E61]); (0x16E42, [0x16E62]); (0x16E43, [0x16E63]); (0x16E44, [0x16E64]);
   (0x16E45, [0x16E65]); (0x16E46, [0x16E66]); (0x16E47, [0x16E67]); (0x16E48, [0x16E68]);
   (0x16E49, [0x16E69]); (0x16E4A, [0x16E6A]); (0x16E4B, [0x16E6B]); (0x16E4C, [0x16E6C]);
   (0x16E4D, [0x16E6D]); (0x16E4E, [0x16E6E]); (0x16E4F, [0x16E6F]); (0x16E50, [0x16E70]);
   (0x16E51, [0x16E71]); (0x16E52, [0x16E72]); (0x16E53, [0x16E73]); (0x16E54, [0x16E74]);
   (0x16E55, [0x16E75]); (0x16E56, [0x16E76]); (0x16E57, [0x16E77]); (0x16E58, [0x16E78]);
   (0x16E59, [0x16E79]); (0x16E5A, [0x16E7A]); (0x16E5B, [0x16E7B]); (0x16E5C, [0x16E7C]);
   (0x16E5D, [0x16E7D]); (0x16E5E, [0x16E7E]); (0x16E5F, [0x16E7F]); (0x1E900, [0x1E922]);
   (0x1E901, [0x1E923]); (0x1E902, [0x1E924]); (0x1E903, [0x1E925]); (0x1E904, [0x1E926]);
   (0x1E905, [0x1E927]); (0x1E906, [0x1E928]); (0x1E907, [0x1E929]); (0x1E908, [0x1E92A]);
   (0x1E909, [0x1E92B]); (0x1E90A, [0x1E92C]); (0x1E90B, [0x1E92D]); (0x1E90C, [0x1E92E]);
   (0x1E90D, [0x1E92F]); (0x1E90E, [0x1E930]); (0x1E90F, [0x1E931]); (0x1E910, [0x1E932]);
   (0x1E911, [0x1E933]); (0x1E912, [0x1E934]); (0x1E913, [0x1E935]); (0x1E914, [0x1E936]);
   (0x1E915, [0x1E937]); (0x1E916, [0x1E938]); (0x1E917, [0x1E939]); (0x1E918, [0x1E93A]);
   (0x1E919, [0x1E93B]); (0x1E91A, [0x1E93C]); (0x1E91B, [0x1E93D]); (0x1E91C, [0x1E93E]);
   (0x1E91D, [0x1E93F]); (0x1E91E, [0x1E940]); (0x1E91F, [0x1E941]); (0x1E920, [0x1E942]);
   (0x1E921, [0x1E943])
  ].

Definition capital_sigma : N := 0x3A3.
Definition small_sigma : N := 0x3C3.
Definition final_sigma : N := 0x3C2.

End Unicode.

(* ================================================================= *)
(** ** Python strings *)

(** A [str]: its code points. *)
Definition str : Type := list N.

(** The text of a literal of this file, decoded from UTF-8. *)
Fixpoint utf8_decode (bytes : list N) : list N :=
  match bytes with
  | [] => []
  | b0 :: l1 =>
      if (b0 <? 0x80)%N then b0 :: utf8_decode l1
      else
        match l1 with
        | [] => []
        | b1 :: l2 =>
            if (b0 <? 0xE0)%N then
              ((b0 - 0xC0) * 64 + (b1 - 0x80))%N :: utf8_decode l2
            else
              match l2 with
              | [] => []
              | b2 :: l3 =>
                  if (b0 <? 0xF0)%N then
                    ((b0 - 0xE0) * 4096 + (b1 - 0x80) * 64 + (b2 - 0x80))%N
                    :: utf8_decode l3
                  else
                    match l3 with
                    | [] => []
                    | b3 :: l4 =>
                        ((b0 - 0xF0) * 262144 + (b1 - 0x80) * 4096
                         + (b2 - 0x80) * 64 + (b3 - 0x80))%N
                        :: utf8_decode l4
                    end
              end
        end
  end.

Definition py (literal : string) : str :=
  utf8_decode (map N_of_ascii (list_ascii_of_string literal)).

Coercion py : string >-> str.

(* ================================================================= *)
(** ** Python's string primitives *)

Module Str.
Import Unicode.

(** [c.isspace()] *)
Definition is_space (c : N) : bool := existsb (N.eqb c) white_space.

Definition is_cased (c : N) : bool := in_ranges c cased_ranges.

Definition is_case_ignorable (c : N) : bool :=
  in_ranges c case_ignorable_ranges.

(** The lower case of one code point out of context. *)
Definition lower_cp (c : N) : str :=
  match assoc c lower_table with
  | Some l => l
  | None => [c]
  end.

Fixpoint skip_ignorable (s : str) : str :=
  match s with
  | [] => []
  | c :: s' => if is_case_ignorable c then skip_ignorable s' else s
  end.

(** The nearest code point of [s] that is not case-ignorable is
    cased. *)
Definition cased_next (s : str) : bool :=
  match skip_ignorable s with
  | [] => false
  | c :: _ => is_cased c
  end.

(** A capital sigma is final when a cased letter precedes it and none
    follows, case-ignorable code points aside; [before] is the text
    before it, nearest code point first. *)
Definition in_final_position (before after : str) : bool :=
  cased_next before && negb (cased_next after).

(** The lower case of [c] between [before] (nearest first) and
    [after]. *)
Definition lower_at (before : str) (c : N) (after : str) : str :=
  if (c =? capital_sigma)%N then
    [if in_final_position before after then final_sigma else small_sigma]
  else lower_cp c.

Fixpoint lower_from (before : str) (s : str) : str :=
  match s with
  | [] => []
  | c :: s' => lower_at before c s' ++ lower_from (c :: before) s'
  end.

(** [s.lower()] *)
Definition lower (s : str) : str := lower_from [] s.

(** [s.lstrip()] *)
Fixpoint lstrip (s : str) : str :=
  match s with
  | [] => []
  | c :: s' => if is_space c then lstrip s' else s
  end.

(** [s.rstrip()] *)
Fixpoint rstrip (s : str) : str :=
  match s with
  | [] => []
  | c :: s' =>
      match rstrip s' with
      | [] => if is_space c then [] else [c]
      | r => c :: r
      end
  end.

(** [s.strip()] *)
Definition strip (s : str) : str := rstrip (lstrip s).

(** Appends the word under construction to the words found after it,
    unless it is empty. *)
Definition push_word (w : str) (ws : list str) : list str :=
  match w with
  | [] => ws
  | _ => w :: ws
  end.

(** One right-to-left pass over [s]: the first component is the maximal
    whitespace-free prefix of [s], the second the words after it. *)
Fixpoint scan_words (s : str) : str * list str :=
  match s with
  | [] => ([], [])
  | c :: s' =>
      let (w, ws) := scan_words s' in
      if is_space c then ([], push_word w ws)
      else (c :: w, ws)
  end.

(** [s.split()]: the maximal whitespace-free runs of [s], in order. *)
Definition split (s : str) : list str :=
  let (w, ws) := scan_words s in push_word w ws.

(** [sep.join(l)] *)
Fixpoint join (sep : str) (l : list str) : str :=
  match l with
  | [] => []
  | [x] => x
  | x :: l' => x ++ sep ++ join sep l'
  end.

(** [k] is a prefix of [m]. *)
Fixpoint prefix (k m : str) : bool :=
  match k, m with
  | [], _ => true
  | _ :: _, [] => false
  | a :: k', b :: m' => (a =? b)%N && prefix k' m'
  end.

(** [k in m]: [k] occurs in [m] at some offset. *)
Fixpoint contains (k m : str) : bool :=
  prefix k m ||
  match m with
  | [] => false
  | _ :: m' => contains k m'
  end.

(** The characters of [s], one string each: iterating a [str]. *)
Definition chars (s : str) : list str := map (fun c => [c]) s.

(** [a == b] *)
Fixpoint eqb (a b : str) : bool :=
  match a, b with
  | [], [] => true
  | x :: a', y :: b' => (x =? y)%N && eqb a' b'
  | _, _ => false
  end.

End Str.

(* ================================================================= *)
(** ** Text normalisation *)

(** [' '.join(text.lower().strip().split())] *)
Definition clean_text (text : str) : str :=
  Str.join " " (Str.split (Str.strip (Str.lower text))).
(* ================================================================= *)
(** ** Values, exceptions and the method monad *)

(** What [json.load] can return: [None], a [bool], an [int], a [float],
    a [str], a [list] or a [dict] with string keys. *)
Inductive json : Type :=
| JNull
| JBool (b : bool)
| JInt (n : Z)
| JFloat (f : float)
| JStr (s : str)
| JArr (items : list json)
| JObj (members : list (str * json)).

(** The exceptions the engine can meet. *)
Inductive exn : Type :=
| FileNotFoundError
| PermissionError
| IsADirectoryError
| UnicodeDecodeError
| JSONDecodeError
| AttributeError
| TypeError
| NotADirectoryError
| RecursionError
| ValueError
| OSError.

Inductive outcome (A : Type) : Type :=
| Return (a : A)
| Raise (e : exn).
Arguments Return {A} a.
Arguments Raise {A} e.

(** The instance: [self.intents_file] and [self.intents]. *)
Record HealthChatbot : Type := {
  intents_file : str;
  intents : json
}.

(** A method body: it runs on [self] and leaves [self] behind, also when
    it raises. *)
Definition M (A : Type) : Type := HealthChatbot -> outcome A * HealthChatbot.

Definition ret {A} (a : A) : M A := fun self => (Return a, self).

Definition raise {A} (e : exn) : M A := fun self => (Raise e, self).

Definition bind {A B} (c : M A) (k : A -> M B) : M B :=
  fun self =>
    match c self with
    | (Return a, self') => k a self'
    | (Raise e, self') => (Raise e, self')
    end.

Declare Scope method_scope.
Delimit Scope method_scope with method.
Notation "x <- c ;; k" := (bind c (fun x => k))
  (at level 100, c at next level, right associativity) : method_scope.
Notation "c ;; k" := (bind c (fun _ => k))
  (at level 100, right associativity) : method_scope.
Open Scope method_scope.

Definition get_self : M HealthChatbot := fun self => (Return self, self).

(** [self.intents = v] *)
Definition set_intents (v : json) : M unit :=
  fun self => (Return tt, {| intents_file := intents_file self; intents := v |}).

(** [try: body except ...: handler]; [handler e = None] when no clause
    names [e], which then propagates. *)
Definition try_except {A} (body : M A) (handler : exn -> option (M A)) : M A :=
  fun self =>
    match body self with
    | (Return a, self') => (Return a, self')
    | (Raise e, self') =>
        match handler e with
        | Some h => h self'
        | None => (Raise e, self')
        end
    end.

(* ================================================================= *)
(** ** Python operations on loaded values *)

Fixpoint lookup (key : str) (members : list (str * json)) : option json :=
  match members with
  | [] => None
  | (k, v) :: rest => if Str.eqb key k then Some v else lookup key rest
  end.

(** [obj.get(key, default)]: only a [dict] has the method. *)
Definition py_get (obj : json) (key : str) (default : json) : M json :=
  match obj with
  | JObj members =>
      match lookup key members with
      | Some v => ret v
      | None => ret default
      end
  | _ => raise AttributeError
  end.

(** [for x in v]: the elements of a list, the keys of a dict, the
    characters of a string; nothing else is iterable. *)
Definition py_iter (v : json) : M (list json) :=
  match v with
  | JArr items => ret items
  | JObj members => ret (map (fun kv => JStr (fst kv)) members)
  | JStr s => ret (map JStr (Str.chars s))
  | _ => raise TypeError
  end.

(** [len(v)] *)
Definition py_len (v : json) : M nat :=
  match v with
  | JArr items => ret (List.length items)
  | JObj members => ret (List.length members)
  | JStr s => ret (List.length s)
  | _ => raise TypeError
  end.

(** [self.clean_text(v)] on a loaded value: [v.lower] exists on [str]
    only. *)
Definition call_clean_text (v : json) : M str :=
  match v with
  | JStr s => ret (clean_text s)
  | _ => raise AttributeError
  end.

(* ================================================================= *)
(** ** The source of the knowledge base *)

(** What opening [self.intents_file] (relative to the module's directory)
    and parsing it leads to. *)
Inductive source : Type :=
| Missing                 (* no such file: FileNotFoundError *)
| Denied                  (* PermissionError *)
| Directory               (* IsADirectoryError *)
| Undecodable             (* not UTF-8: UnicodeDecodeError *)
| Malformed               (* not JSON: JSONDecodeError *)
| NotDirectory            (* a file on the path: NotADirectoryError *)
| Unreadable              (* any other failure to open or read: OSError *)
| TooDeep                 (* nesting beyond the recursion limit:
                             RecursionError *)
| HugeInteger             (* an integer beyond the digit limit:
                             ValueError *)
| Document (data : json). (* [json.load] returns [data] *)

Definition filesystem : Type := str -> source.

(** [with open(file_path, 'r', encoding='utf-8') as file: json.load(file)] *)
Definition open_and_load (fs : filesystem) (path : str) : M json :=
  match fs path with
  | Missing => raise FileNotFoundError
  | Denied => raise PermissionError
  | Directory => raise IsADirectoryError
  | Undecodable => raise UnicodeDecodeError
  | Malformed => raise JSONDecodeError
  | NotDirectory => raise NotADirectoryError
  | Unreadable => raise OSError
  | TooDeep => raise RecursionError
  | HugeInteger => raise ValueError
  | Document data => ret data
  end.

(* ================================================================= *)
(** ** class HealthChatbot *)

(** [print(f"... {len(self.intents)} ...")]: the text is not modelled,
    the evaluation of [len] is. *)
Definition print_count : M unit :=
  self <- get_self ;; _ <- py_len (intents self) ;; ret tt.

Definition load_intents (fs : filesystem) : M unit :=
  try_except
    (self <- get_self ;;
     data <- open_and_load fs (intents_file self) ;;
     v <- py_get data "intents" (JArr []) ;;
     set_intents v ;;
     print_count)
    (fun e =>
       match e with
       | FileNotFoundError => Some (set_intents (JArr []))
       | JSONDecodeError => Some (set_intents (JArr []))
       | _ => None
       end).

Definition default_intents_file : str := "data/intents.json".

(** [HealthChatbot(intents_file)]: the instance, or the exception that
    escapes [__init__]. *)
Definition init (fs : filesystem) (file : str) : outcome HealthChatbot :=
  let self := {| intents_file := file; intents := JArr [] |} in
  match (load_intents fs ;; print_count) self with
  | (Return _, self') => Return self'
  | (Raise e, _) => Raise e
  end.

(** The body of [for keyword in keywords]. *)
Fixpoint check_keywords_loop (user_message : str) (keywords : list json)
  : M bool :=
  match keywords with
  | [] => ret false
  | keyword :: rest =>
      keyword <- call_clean_text keyword ;;
      if Str.contains keyword user_message then ret true
      else check_keywords_loop user_message rest
  end.

Definition check_keywords (user_message : str) (keywords : json) : M bool :=
  let user_message := clean_text user_message in
  keywords <- py_iter keywords ;;
  check_keywords_loop user_message keywords.

Definition dquote : str := [34%N].

Definition default_response : str :=
  py "I'm not sure about that specific topic. I can help you with:

<strong>Common Health Topics:</strong>
• Fever, Cold, Flu, Headache
• Diabetes, Blood Pressure, Heart Disease
• Burns, Cuts, Wounds, Sprains
• CPR, Choking, First Aid
• Asthma, Allergies, COVID-19
• Nutrition, Exercise, Sleep
• Mental Health, Stress, Anxiety
• Pregnancy, Women's Health
• Child Health, Vaccinations

Please ask about any of these topics, and I'll provide detailed information! 😊

<em>💡 Tip: Try to be specific, like "
  ++ dquote ++ py "What are fever symptoms?" ++ dquote ++ py " or "
  ++ dquote ++ py "How to treat burns?" ++ dquote ++ py "</em>".

(** The body of [for intent in self.intents], with the fall-through to
    the default answer at its end. *)
Fixpoint get_response_loop (user_message : str) (items : list json)
  : M (json * float) :=
  match items with
  | [] => ret (JStr default_response, 0.3%float)
  | intent :: rest =>
      keywords <- py_get intent "keywords" (JArr []) ;;
      hit <- check_keywords user_message keywords ;;
      if hit then
        response <- py_get intent "response" (JStr []) ;;
        ret (response, 0.95%float)
      else get_response_loop user_message rest
  end.

Definition get_response (user_message : str) : M (json * float) :=
  let user_message := clean_text user_message in
  self <- get_self ;;
  items <- py_iter (intents self) ;;
  get_response_loop user_message items.

(* ================================================================= *)
(** ** Vocabulary of the specification *)

(** [k] is a contiguous substring of [m]. *)
Definition occurs (k m : str) : Prop := exists a b, m = a ++ k ++ b.

(** The normalised keyword occurs in the normalised message. *)
Definition keyword_matches (message keyword : str) : Prop :=
  occurs (clean_text keyword) (clean_text message).

Definition matches_any (message : str) (keywords : list str) : Prop :=
  exists k, In k keywords /\ keyword_matches message k.

(** A topic record as the data model describes it. *)
Record TopicEntry : Type := {
  keywords : list str;
  response : str
}.

(** A Python list of strings. *)
Definition str_list (l : list str) : json := JArr (map JStr l).

Fixpoint strings_of_items (items : list json) : option (list str) :=
  match items with
  | [] => Some []
  | JStr s :: rest =>
      match strings_of_items rest with
      | Some l => Some (s :: l)
      | None => None
      end
  | _ :: _ => None
  end.

(** Reads a loaded record as a topic entry: an object whose [keywords],
    when present, is a list of strings and whose [response], when
    present, is a string. *)
Definition entry_of (j : json) : option TopicEntry :=
  match j with
  | JObj members =>
      let ks :=
        match lookup "keywords" members with
        | None => Some []
        | Some (JArr items) => strings_of_items items
        | Some _ => None
        end in
      let r :=
        match lookup "response" members with
        | None => Some ([] : str)
        | Some (JStr s) => Some s
        | Some _ => None
        end in
      match ks, r with
      | Some ks, Some r => Some {| keywords := ks; response := r |}
      | _, _ => None
      end
  | _ => None
  end.

Fixpoint entries_of (items : list json) : option (list TopicEntry) :=
  match items with
  | [] => Some []
  | j :: rest =>
      match entry_of j, entries_of rest with
      | Some e, Some es => Some (e :: es)
      | _, _ => None
      end
  end.

(** The knowledge base an instance holds, when [self.intents] is a list
    of topic records. *)
Definition knowledge_base (self : HealthChatbot) : option (list TopicEntry) :=
  match intents self with
  | JArr items => entries_of items
  | _ => None
  end.

(** The record and the list a topic entry and a knowledge base are
    loaded from, when every field is present. *)
Definition entry_json (e : TopicEntry) : json :=
  JObj [(py "keywords", str_list (keywords e)); (py "response", JStr (response e))].

Definition engine_of (file : str) (kb : list TopicEntry) : HealthChatbot :=
  {| intents_file := file; intents := JArr (map entry_json kb) |}.

(** Shape of a normalised text. *)
Definition head_space (s : str) : bool :=
  match s with
  | [] => false
  | c :: _ => Str.is_space c
  end.

Fixpoint last_space (s : str) : bool :=
  match s with
  | [] => false
  | [c] => Str.is_space c
  | _ :: s' => last_space s'
  end.

(** Every whitespace character is a blank that no whitespace follows. *)
Fixpoint single_blanks (s : str) : bool :=
  match s with
  | [] => true
  | c :: s' =>
      (if Str.is_space c then (c =? 32)%N && negb (head_space s') else true)
      && single_blanks s'
  end.

Fixpoint no_space (s : str) : bool :=
  match s with
  | [] => true
  | c :: s' => negb (Str.is_space c) && no_space s'
  end.

(** A code point that [str.lower] leaves as it is wherever it stands:
    it has no lower-case mapping and is not the capital sigma. *)
Definition settled (c : N) : bool :=
  match Unicode.assoc c Unicode.lower_table with
  | Some _ => false
  | None => true
  end.

(** A word: a non-empty text without whitespace. *)
Definition word (w : str) : Prop := w <> [] /\ no_space w = true.

(** A method that leaves the instance as it found it, whatever it
    returns or raises. *)
Definition read_only {A} (c : M A) : Prop := forall self, snd (c self) = self.

(** A method that does not even look at the instance. *)
Definition pure {A} (c : M A) : Prop := exists r, forall self, c self = (r, self).

(** The text without its whitespace. *)
Fixpoint drop_spaces (s : str) : str :=
  match s with
  | [] => []
  | c :: s' => if Str.is_space c then drop_spaces s' else c :: drop_spaces s'
  end.

(* ================================================================= *)
(** ** The knowledge base of the test scenarios *)

Definition fever_entry : TopicEntry :=
  {| keywords := [py "fever"; py "high temperature"];
     response := "Fever care: rest and fluids." |}.

Definition burn_entry : TopicEntry :=
  {| keywords := [py "burn"]; response := "Burn care: cool water, no ice." |}.

Definition scenario_kb : list TopicEntry := [fever_entry; burn_entry].

Definition scenario_bot : HealthChatbot :=
  engine_of default_intents_file scenario_kb.

(** An instance before [load_intents] has run. *)
Definition fresh (file : str) : HealthChatbot :=
  {| intents_file := file; intents := JArr [] |}.

(* ================================================================= *)
(** ** Further vocabulary *)

(** The text consists of whitespace only. *)
Fixpoint all_space (s : str) : bool :=
  match s with
  | [] => true
  | c :: s' => Str.is_space c && all_space s'
  end.

(** The words of a text joined by single blanks, case untouched. *)
Definition normal (s : str) : str := Str.join " " (Str.split s).

(** What follows a word in a joined text. *)
Definition glue (ws : list str) : str :=
  match ws with
  | [] => []
  | _ => 32%N :: Str.join " " ws
  end.



(** The values [len] accepts. *)
Definition sized (v : json) : bool :=
  match v with
  | JArr _ | JObj _ | JStr _ => true
  | _ => false
  end.

(** The default of [dict.get]. *)
Definition member_or (key : str) (default : json)
           (members : list (str * json)) : json :=
  match lookup key members with
  | Some v => v
  | None => default
  end.

(* ================================================================= *)
(** ** The HTTP front end of [app.py] *)

(** A value of a reply's dictionary. *)
Inductive pyval : Type :=
| VJson (v : json)
| VFloat (c : float)
| VInt (n : nat).

Definition VStr (s : str) : pyval := VJson (JStr s).

(** [jsonify(payload), status_code] *)
Record http_response : Type := {
  payload : list (str * pyval);
  status_code : nat
}.

(** What [request.get_json()] does: it raises (the body is not JSON), or
    it returns the parsed body. *)
Inductive request : Type :=
| NoJson
| Json (data : json).

(** The module-level [chatbot]: [HealthChatbot()], or [None] when the
    constructor raises. *)
Definition startup (fs : filesystem) : option HealthChatbot :=
  match init fs default_intents_file with
  | Return bot => Some bot
  | Raise _ => None
  end.

(** Python's truth value of a loaded value. *)
Definition truthy (v : json) : bool :=
  match v with
  | JNull => false
  | JBool b => b
  | JInt n => negb (n =? 0)%Z
  | JFloat f => negb (PrimFloat.eqb f 0%float)
  | JStr [] => false
  | JStr _ => true
  | JArr [] => false
  | JArr _ => true
  | JObj [] => false
  | JObj _ => true
  end.

(** ['message' in data]: a key of a dict, an element of a list, a
    substring of a string; [None] is the [TypeError] of the other
    values. *)
Definition has_message (data : json) : option bool :=
  match data with
  | JObj members =>
      Some (match lookup "message" members with
            | Some _ => true
            | None => false
            end)
  | JArr items =>
      Some (existsb (fun j => match j with
                              | JStr s => Str.eqb s "message"
                              | _ => false
                              end) items)
  | JStr s => Some (Str.contains "message" s)
  | _ => None
  end.

(** [data['message']]: [None] is the [KeyError] of a dict without the
    key and the [TypeError] of a list or a string. *)
Definition item_message (data : json) : option json :=
  match data with
  | JObj members => lookup "message" members
  | _ => None
  end.

(** [v.strip()]: [None] is the [AttributeError] of a value that is not
    a string. *)
Definition call_strip (v : json) : option str :=
  match v with
  | JStr s => Some (Str.strip s)
  | _ => None
  end.

Definition no_message_reply : http_response :=
  {| payload :=
       [(py "error", VStr "No message provided");
        (py "response",
         VStr (py "Please send a message in the format: {" ++ dquote
               ++ py "message" ++ dquote ++ py ": " ++ dquote
               ++ py "your question" ++ dquote ++ py "}"))];
     status_code := 400 |}.

Definition empty_message_reply : http_response :=
  {| payload :=
       [(py "error", VStr "Empty message");
        (py "response", VStr "Please type a valid question.")];
     status_code := 400 |}.

Definition success_reply (bot_response : json) (confidence : float)
  : http_response :=
  {| payload :=
       [(py "response", VJson bot_response);
        (py "confidence", VFloat confidence);
        (py "status", VStr "success")];
     status_code := 200 |}.

Definition error_reply : http_response :=
  {| payload :=
       [(py "error", VStr "Internal server error");
        (py "response",
         VStr "Sorry, I encountered an error processing your request. Please try again.");
        (py "status", VStr "error")];
     status_code := 500 |}.

Definition unavailable : str :=
  "Sorry, the chatbot engine is not available at the moment. Please try again later.".

(** The [try] block of [chat]: the reply it returns, or [None] when an
    exception leaves it; the module-level [chatbot] is threaded
    through. *)
Definition chat_try (chatbot : option HealthChatbot) (req : request)
  : option http_response * option HealthChatbot :=
  match req with
  | NoJson => (None, chatbot)
  | Json data =>
      if negb (truthy data) then (Some no_message_reply, chatbot)
      else
        match has_message data with
        | None => (None, chatbot)
        | Some false => (Some no_message_reply, chatbot)
        | Some true =>
            match item_message data with
            | None => (None, chatbot)
            | Some v =>
                match call_strip v with
                | None => (None, chatbot)
                | Some [] => (Some empty_message_reply, chatbot)
                | Some user_message =>
                    match chatbot with
                    | Some bot =>
                        match get_response user_message bot with
                        | (Return (bot_response, confidence), bot') =>
                            (Some (success_reply bot_response confidence),
                             Some bot')
                        | (Raise _, bot') => (None, Some bot')
                        end
                    | None =>
                        (Some (success_reply (JStr unavailable) 0%float), None)
                    end
                end
            end
        end
  end.

(** [chat()]: [except Exception] turns every exception into the 500
    reply. *)
Definition chat (chatbot : option HealthChatbot) (req : request)
  : http_response * option HealthChatbot :=
  match chat_try chatbot req with
  | (Some reply, chatbot') => (reply, chatbot')
  | (None, chatbot') => (error_reply, chatbot')
  end.

Definition health_reply (loaded : bool) (total : nat) : http_response :=
  {| payload :=
       [(py "status", VStr "healthy");
        (py "chatbot_loaded", VJson (JBool loaded));
        (py "total_topics", VInt total)];
     status_code := 200 |}.

(** [health_check()]; nothing catches what [len] raises. *)
Definition health_check (chatbot : option HealthChatbot)
  : outcome http_response * option HealthChatbot :=
  match chatbot with
  | Some bot =>
      match py_len (intents bot) bot with
      | (Return n, bot') => (Return (health_reply true n), Some bot')
      | (Raise e, bot') => (Raise e, Some bot')
      end
  | None => (Return (health_reply false 0), None)
  end.

(** A request that carries [message] and nothing else. *)
Definition ask (message : str) : request :=
  Json (JObj [(py "message", JStr message)]).

(** The sources the constructor does not survive. *)
Definition unloadable (src : source) : bool :=
  match src with
  | Missing | Malformed => false
  | Denied | Directory | Undecodable => true
  | NotDirectory | Unreadable | TooDeep | HugeInteger => true
  | Document (JObj members) => negb (sized (member_or "intents" (JArr []) members))
  | Document _ => true
  end.

(** The answer given when nothing matches. *)
Definition fallback : outcome (json * float) :=
  Return (JStr default_response, 0.3%float).

(* ================================================================= *)
(** ** Facts about the Unicode tables *)

Module TableFacts.
Import Unicode Str.

Lemma is_space_in (c : N) : is_space c = true <-> In c white_space.
Proof.
  unfold is_space. rewrite existsb_exists. split.
  - intros [x [Hin Heq]]. apply N.eqb_eq in Heq. now subst.
  - intros Hin. exists c. split; [assumption | apply N.eqb_refl].
Qed.

(** Whitespace has no case, is not case-ignorable and has no lower-case
    mapping. *)
Lemma white_space_plain :
  forallb (fun w => negb (is_case_ignorable w) && negb (is_cased w)
                    && settled w) white_space = true.
Proof. vm_compute. reflexivity. Qed.

Lemma is_space_plain (c : N) :
  is_space c = true ->
  is_case_ignorable c = false /\ is_cased c = false /\ settled c = true.
Proof.
  intros H. apply is_space_in in H.
  pose proof (proj1 (forallb_forall _ _) white_space_plain c H) as Hc.
  apply andb_true_iff in Hc as [Hc Hs].
  apply andb_true_iff in Hc as [Hi Hd].
  now rewrite negb_true_iff in Hi, Hd.
Qed.

(** Every lower-case mapping is a non-empty text of code points that
    are settled and are not whitespace. *)
Lemma lower_table_outputs :
  forallb (fun kv => forallb (fun d => settled d && negb (is_space d)) (snd kv)
                     && match snd kv with [] => false | _ => true end)
          lower_table = true.
Proof. vm_compute. reflexivity. Qed.

Lemma assoc_in (c : N) (t : list (N * list N)) (v : list N) :
  assoc c t = Some v -> In (c, v) t.
Proof.
  induction t as [|[k w] t IH]; simpl; [discriminate|].
  destruct (N.eqb_spec c k) as [->|Hne].
  - intros H. inversion H. now left.
  - destruct (c <? k)%N; [discriminate|]. intros H. right. now apply IH.
Qed.

Lemma lower_cp_outputs (c : N) :
  forallb settled (lower_cp c) = true /\
  (is_space c = false -> no_space (lower_cp c) = true) /\
  lower_cp c <> [].
Proof.
  unfold lower_cp. destruct (assoc c lower_table) as [l|] eqn:Hc.
  - apply assoc_in in Hc.
    pose proof (proj1 (forallb_forall _ _) lower_table_outputs _ Hc) as H.
    cbn [snd] in H. apply andb_true_iff in H as [Hall Hne].
    rewrite forallb_forall in Hall. repeat split.
    + apply forallb_forall. intros d Hd. specialize (Hall d Hd).
      now apply andb_true_iff in Hall as [Hs _].
    + intros _. clear Hne Hc. induction l as [|d l IH]; [reflexivity|].
      cbn [no_space]. rewrite IH by (intros x Hx; apply Hall; now right).
      specialize (Hall d (or_introl eq_refl)).
      apply andb_true_iff in Hall as [_ Hd]. now rewrite Hd.
    + destruct l; [discriminate | discriminate].
  - repeat split.
    + cbn [forallb]. unfold settled. now rewrite Hc.
    + intros Hs. cbn [no_space]. now rewrite Hs.
    + discriminate.
Qed.

Lemma settled_not_sigma (c : N) :
  settled c = true -> (c =? capital_sigma)%N = false.
Proof.
  intros H. destruct (N.eqb_spec c capital_sigma) as [->|]; [|reflexivity].
  vm_compute in H. discriminate.
Qed.

Lemma lower_cp_settled (c : N) : settled c = true -> lower_cp c = [c].
Proof.
  unfold settled, lower_cp. now destruct (assoc c lower_table).
Qed.

Lemma lower_at_settled (before : str) (c : N) (after : str) :
  settled c = true -> lower_at before c after = [c].
Proof.
  intros H. unfold lower_at. rewrite (settled_not_sigma _ H).
  now apply lower_cp_settled.
Qed.

Lemma lower_at_outputs (before : str) (c : N) (after : str) :
  forallb settled (lower_at before c after) = true /\
  (is_space c = false -> no_space (lower_at before c after) = true) /\
  lower_at before c after <> [].
Proof.
  unfold lower_at. destruct (c =? capital_sigma)%N; [|apply lower_cp_outputs].
  destruct (in_final_position before after); repeat split;
    try discriminate; intros; vm_compute; reflexivity.
Qed.

Lemma lower_at_space (before : str) (c : N) (after : str) :
  is_space c = true -> lower_at before c after = [c].
Proof. intros H. apply lower_at_settled. now apply is_space_plain. Qed.

Lemma is_space_blank : is_space 32 = true.
Proof. reflexivity. Qed.

End TableFacts.

(* ================================================================= *)
(** ** Facts about the string primitives *)

Module StrFacts.
Import Unicode Str TableFacts.

Lemma no_space_app (a b : str) : no_space (a ++ b) = no_space a && no_space b.
Proof.
  induction a as [|c a IH]; simpl; [reflexivity|].
  now rewrite IH, andb_assoc.
Qed.

(** *** Lower-casing *)

Lemma lower_from_settled (before s : str) :
  forallb settled (lower_from before s) = true.
Proof.
  revert before. induction s as [|c s IH]; intros before; [reflexivity|].
  cbn [lower_from]. rewrite forallb_app, IH, andb_true_r.
  apply lower_at_outputs.
Qed.

Lemma lower_from_fixed (before s : str) :
  forallb settled s = true -> lower_from before s = s.
Proof.
  revert before. induction s as [|c s IH]; intros before H; [reflexivity|].
  cbn [forallb] in H. apply andb_true_iff in H as [Hc Hs].
  cbn [lower_from]. now rewrite (lower_at_settled _ _ _ Hc), (IH _ Hs).
Qed.

Lemma lower_idem (s : str) : lower (lower s) = lower s.
Proof. apply lower_from_fixed, lower_from_settled. Qed.

Lemma lower_from_no_space (before s : str) :
  no_space (lower_from before s) = no_space s.
Proof.
  revert before. induction s as [|c s IH]; intros before; [reflexivity|].
  cbn [lower_from no_space]. rewrite no_space_app, IH.
  destruct (is_space c) eqn:Hc.
  - now rewrite (lower_at_space _ _ _ Hc); cbn [no_space]; rewrite Hc.
  - now rewrite (proj1 (proj2 (lower_at_outputs before c s)) Hc).
Qed.

Lemma lower_from_nil (before s : str) : lower_from before s = [] <-> s = [].
Proof.
  split; [|now intros ->]. destruct s as [|c s]; [reflexivity|].
  cbn [lower_from]. intros H. apply app_eq_nil in H as [H _].
  now apply lower_at_outputs in H.
Qed.

(** The text beyond a whitespace character does not decide a sigma. *)
Lemma cased_next_space (x : str) (w : N) (y : str) :
  is_space w = true -> cased_next (x ++ w :: y) = cased_next x.
Proof.
  intros Hw. destruct (is_space_plain _ Hw) as [Hi [Hc _]].
  unfold cased_next. induction x as [|c x IH]; cbn [app skip_ignorable].
  - now rewrite Hi, Hc.
  - destruct (is_case_ignorable c); [exact IH | reflexivity].
Qed.

Lemma lower_at_before (x : str) (w : N) (b : str) (c : N) (after : str) :
  is_space w = true -> lower_at (x ++ w :: b) c after = lower_at x c after.
Proof.
  intros Hw. unfold lower_at, in_final_position.
  now rewrite (cased_next_space _ _ _ Hw).
Qed.

Lemma lower_at_after (before : str) (c : N) (x : str) (w : N) (y : str) :
  is_space w = true -> lower_at before c (x ++ w :: y) = lower_at before c x.
Proof.
  intros Hw. unfold lower_at, in_final_position.
  now rewrite (cased_next_space _ _ _ Hw).
Qed.

Lemma lower_from_before (x : str) (w : N) (b s : str) :
  is_space w = true -> lower_from (x ++ w :: b) s = lower_from x s.
Proof.
  intros Hw. revert x. induction s as [|c s IH]; intros x; [reflexivity|].
  cbn [lower_from]. rewrite (lower_at_before _ _ _ _ _ Hw).
  f_equal. apply (IH (c :: x)).
Qed.

(** *** Splitting *)

Lemma push_word_map (f : str -> str) (w : str) (ws : list str) :
  (f w = [] <-> w = []) ->
  push_word (f w) (map f ws) = map f (push_word w ws).
Proof.
  intros Hf. destruct w as [|c w]; cbn [push_word].
  - now rewrite (proj2 Hf eq_refl).
  - assert (Hne : f (c :: w) <> [])
      by (intros E; apply Hf in E; discriminate).
    cbn [map]. now destruct (f (c :: w)).
Qed.

(** A text is its first word followed by nothing or by whitespace. *)
Lemma scan_words_prefix (s : str) :
  exists rest,
    s = fst (scan_words s) ++ rest /\ (rest = [] \/ head_space rest = true).
Proof.
  induction s as [|c s [rest [Hs Hrest]]];
    [exists []; split; [reflexivity | now left]|].
  cbn [scan_words]. destruct (scan_words s) as [w ws]; cbn [fst] in *.
  destruct (is_space c) eqn:Hc; cbn [fst].
  - exists (c :: s). split; [reflexivity | right; exact Hc].
  - exists rest. split; [now rewrite Hs at 1 | assumption].
Qed.

Lemma lower_at_first_word (before : str) (c : N) (s : str) :
  lower_at before c s = lower_at before c (fst (scan_words s)).
Proof.
  destruct (scan_words_prefix s) as [rest [Hs [-> | Hrest]]].
  - now rewrite app_nil_r in Hs; rewrite <- Hs.
  - destruct rest as [|w y]; [discriminate|]. cbn [head_space] in Hrest.
    rewrite Hs at 1. now apply lower_at_after.
Qed.

Lemma scan_words_app (w r : str) :
  no_space w = true ->
  scan_words (w ++ r) = (w ++ fst (scan_words r), snd (scan_words r)).
Proof.
  induction w as [|c w IH]; simpl; intros H.
  - now destruct (scan_words r).
  - apply andb_true_iff in H as [Hc Hw]. apply negb_true_iff in Hc.
    now rewrite (IH Hw), Hc.
Qed.

Lemma scan_words_lower_from (before s : str) :
  scan_words (lower_from before s) =
  (lower_from before (fst (scan_words s)), map lower (snd (scan_words s))).
Proof.
  revert before. induction s as [|c s IH]; intros before; [reflexivity|].
  cbn [lower_from scan_words].
  destruct (is_space c) eqn:Hc.
  - rewrite (lower_at_space _ _ _ Hc). cbn [app scan_words]. rewrite Hc.
    rewrite (IH (c :: before)).
    destruct (scan_words s) as [w ws]; cbn [fst snd lower_from].
    pose proof (lower_from_before [] c before w Hc) as Hb.
    cbn [app] in Hb. rewrite Hb. apply f_equal. unfold lower.
    apply (push_word_map lower). apply lower_from_nil.
  - rewrite scan_words_app
      by (apply (proj1 (proj2 (lower_at_outputs before c s))), Hc).
    rewrite (IH (c :: before)), (lower_at_first_word before c s).
    destruct (scan_words s) as [w ws]; cbn [fst snd lower_from].
    reflexivity.
Qed.

Lemma split_lower (s : str) : split (lower s) = map lower (split s).
Proof.
  unfold split, lower. rewrite scan_words_lower_from.
  destruct (scan_words s) as [w ws]; cbn [fst snd].
  apply (push_word_map lower), lower_from_nil.
Qed.

Lemma split_space (c : N) (s : str) :
  is_space c = true -> split (c :: s) = split s.
Proof.
  intros Hc. unfold split; simpl.
  destruct (scan_words s) as [w ws]. now rewrite Hc.
Qed.

Lemma split_lstrip (s : str) : split (lstrip s) = split s.
Proof.
  induction s as [|c s IH]; simpl; [reflexivity|].
  destruct (is_space c) eqn:Hc; [|reflexivity].
  now rewrite IH, split_space.
Qed.

Lemma scan_words_rstrip (s : str) : scan_words (rstrip s) = scan_words s.
Proof.
  induction s as [|c s IH]; [reflexivity|].
  cbn [rstrip]. destruct (rstrip s) as [|d r] eqn:Hr.
  - cbn [scan_words]. rewrite <- IH. cbn [scan_words].
    destruct (is_space c) eqn:Hc; cbn [scan_words]; rewrite ?Hc; reflexivity.
  - cbn [scan_words] in *. now rewrite <- IH.
Qed.

Lemma split_strip (s : str) : split (strip s) = split s.
Proof.
  unfold strip, split. rewrite scan_words_rstrip. apply split_lstrip.
Qed.

Lemma split_word (w : str) : word w -> split w = [w].
Proof.
  intros [Hne Hw]. unfold split.
  rewrite <- (app_nil_r w) at 1. rewrite (scan_words_app _ _ Hw); simpl.
  rewrite app_nil_r. now destruct w.
Qed.

Lemma join_blank_cons (w w' : str) (ws : list str) :
  join " " (w :: w' :: ws) = w ++ 32%N :: join " " (w' :: ws).
Proof. reflexivity. Qed.

Lemma split_word_blank (w r : str) :
  word w -> split (w ++ 32%N :: r) = w :: split r.
Proof.
  intros [Hne Hw]. unfold split.
  rewrite (scan_words_app _ _ Hw). cbn [scan_words]. rewrite is_space_blank.
  destruct (scan_words r) as [w0 ws0]; cbn [fst snd].
  rewrite app_nil_r. now destruct w.
Qed.

(** Reading left to right: leading whitespace is skipped ([split_space]),
    then a word runs up to the next whitespace or the end. *)
Lemma split_word_app (w r : str) :
  word w -> r = [] \/ head_space r = true ->
  split (w ++ r) = w :: split r.
Proof.
  intros Hw [-> | Hr].
  - rewrite app_nil_r. now apply split_word.
  - destruct r as [|c r]; [discriminate|]. simpl in Hr.
    rewrite (split_space c r Hr). destruct Hw as [Hne Hw].
    unfold split. rewrite (scan_words_app _ _ Hw). cbn [scan_words].
    destruct (scan_words r) as [w0 ws0]. rewrite Hr; simpl.
    rewrite app_nil_r. now destruct w.
Qed.

Lemma split_join (ws : list str) :
  Forall word ws -> split (join " " ws) = ws.
Proof.
  induction ws as [|w ws IH]; intros H; [reflexivity|].
  inversion H as [|? ? Hw Hws]; subst.
  destruct ws as [|w' ws'].
  - now apply split_word.
  - now rewrite join_blank_cons, split_word_blank, IH.
Qed.

Lemma scan_words_words (s : str) :
  no_space (fst (scan_words s)) = true /\ Forall word (snd (scan_words s)).
Proof.
  induction s as [|c s [IHw IHws]]; simpl; [now split|].
  destruct (scan_words s) as [w ws]; simpl in *.
  destruct (is_space c) eqn:Hc; simpl.
  - split; [reflexivity|].
    destruct w; simpl; [assumption|].
    constructor; [|assumption]. split; [discriminate | assumption].
  - now rewrite Hc.
Qed.

Lemma split_words (s : str) : Forall word (split s).
Proof.
  unfold split. pose proof (scan_words_words s) as [Hw Hws].
  destruct (scan_words s) as [w ws]; simpl in *.
  destruct w; simpl; [assumption|].
  constructor; [|assumption]. split; [discriminate | assumption].
Qed.

Lemma word_lower (w : str) : word w -> word (lower w).
Proof.
  intros [Hne Hw]. split.
  - intros H. now apply lower_from_nil in H.
  - unfold lower. now rewrite lower_from_no_space.
Qed.

Lemma words_lower (ws : list str) :
  Forall word ws -> Forall word (map lower ws).
Proof.
  induction 1; simpl; constructor; auto using word_lower.
Qed.

(** *** Joining *)

Lemma settled_join (ws : list str) :
  Forall (fun w => forallb settled w = true) ws ->
  forallb settled (join " " ws) = true.
Proof.
  induction 1 as [|w ws Hw Hws IH]; [reflexivity|].
  destruct ws as [|w' ws']; [assumption|].
  rewrite join_blank_cons, forallb_app, Hw. cbn [forallb andb].
  apply andb_true_iff. split; [reflexivity | exact IH].
Qed.

Lemma head_space_word_app (w r : str) :
  word w -> head_space (w ++ r) = false.
Proof.
  intros [Hne Hw]. destruct w as [|c w]; [contradiction|]; simpl in *.
  apply andb_true_iff in Hw as [Hc _]. now apply negb_true_iff in Hc.
Qed.

Lemma head_space_join (ws : list str) :
  Forall word ws -> head_space (join " " ws) = false.
Proof.
  intros H. destruct H as [|w ws Hw Hws]; [reflexivity|].
  destruct ws as [|w' ws'].
  - rewrite <- (app_nil_r w). now apply head_space_word_app.
  - rewrite join_blank_cons. now apply head_space_word_app.
Qed.

Lemma last_space_app (a : str) (c : N) (b : str) :
  last_space (a ++ c :: b) = last_space (c :: b).
Proof.
  induction a as [|x a IH]; [reflexivity|].
  change ((x :: a) ++ c :: b) with (x :: (a ++ c :: b)).
  cbn [last_space]. rewrite IH.
  destruct (a ++ c :: b) eqn:E; [now destruct a | reflexivity].
Qed.

Lemma last_space_no_space (w : str) :
  no_space w = true -> last_space w = false.
Proof.
  induction w as [|c w IH]; [reflexivity|]. simpl; intros H.
  apply andb_true_iff in H as [Hc Hw]. apply negb_true_iff in Hc.
  destruct w; [assumption | now apply IH].
Qed.

Lemma last_space_join (ws : list str) :
  Forall word ws -> last_space (join " " ws) = false.
Proof.
  induction 1 as [|w ws Hw Hws IH]; [reflexivity|].
  destruct ws as [|w' ws']; [now apply last_space_no_space, Hw|].
  rewrite join_blank_cons, last_space_app.
  destruct (join " " (w' :: ws')) as [|d r] eqn:E; [|exact IH].
  exfalso. inversion Hws as [|? ? [Hne _] _]; subst.
  destruct ws' as [|w'' ws'']; [simpl in E; now subst|].
  rewrite join_blank_cons in E. now destruct w'.
Qed.

Lemma single_blanks_word_app (w r : str) :
  no_space w = true ->
  single_blanks (w ++ r) = single_blanks r.
Proof.
  induction w as [|c w IH]; [reflexivity|]. simpl; intros H.
  apply andb_true_iff in H as [Hc Hw]. apply negb_true_iff in Hc.
  now rewrite Hc, (IH Hw).
Qed.

Lemma single_blanks_join (ws : list str) :
  Forall word ws -> single_blanks (join " " ws) = true.
Proof.
  induction 1 as [|w ws Hw Hws IH]; [reflexivity|].
  destruct ws as [|w' ws'].
  - simpl. rewrite <- (app_nil_r w).
    now rewrite single_blanks_word_app by apply Hw.
  - rewrite join_blank_cons.
    rewrite single_blanks_word_app by apply Hw.
    cbn [single_blanks]. rewrite is_space_blank, IH, (head_space_join _ Hws).
    reflexivity.
Qed.

(** *** Containment *)

Lemma prefix_occurs (k m : str) :
  prefix k m = true <-> exists b, m = k ++ b.
Proof.
  revert m. induction k as [|c k IH]; intros m.
  - split; [intros _; now exists m | reflexivity].
  - destruct m as [|d m]; simpl.
    + split; [discriminate | intros [b Hb]; discriminate].
    + rewrite andb_true_iff, IH, N.eqb_eq. split.
      * intros [-> [b ->]]. now exists b.
      * intros [b Hb]. inversion Hb; subst. split; [reflexivity | now exists b].
Qed.

Lemma contains_occurs (k m : str) :
  contains k m = true <-> occurs k m.
Proof.
  unfold occurs. induction m as [|d m IH].
  - cbn [contains]. rewrite orb_false_r, prefix_occurs. split.
    + intros [b Hb]. now exists [], b.
    + intros [a [b Hab]]. destruct a; [now exists b | discriminate].
  - cbn [contains]. rewrite orb_true_iff, prefix_occurs, IH. split.
    + intros [[b Hb] | [a [b Hab]]].
      * now exists [], b.
      * exists (d :: a), b. simpl. now rewrite Hab.
    + intros [a [b Hab]]. destruct a as [|x a].
      * left. now exists b.
      * right. exists a, b. simpl in Hab. congruence.
Qed.

Lemma contains_empty (m : str) : contains [] m = true.
Proof. now destruct m. Qed.

Lemma eqb_eq (a b : str) : eqb a b = true <-> a = b.
Proof.
  revert b. induction a as [|x a IH]; intros [|y b]; simpl;
    try (split; [discriminate | discriminate]); [now split|].
  rewrite andb_true_iff, N.eqb_eq, IH. split.
  - now intros [-> ->].
  - intros H. now inversion H.
Qed.

End StrFacts.

(* ================================================================= *)
(** ** Normalisation *)

Module CleanText.
Import Str StrFacts.

Lemma clean_text_words (x : str) :
  clean_text x = join " " (map lower (split x)).
Proof. unfold clean_text. now rewrite split_strip, split_lower. Qed.

Lemma clean_text_idem (x : str) : clean_text (clean_text x) = clean_text x.
Proof.
  rewrite (clean_text_words (clean_text x)), (clean_text_words x).
  rewrite split_join by apply words_lower, split_words.
  rewrite map_map. f_equal. apply map_ext. intros w. apply lower_idem.
Qed.

Lemma split_clean_text (x : str) :
  split (clean_text x) = map lower (split x).
Proof.
  rewrite clean_text_words. apply split_join, words_lower, split_words.
Qed.

End CleanText.

(* ================================================================= *)
(** ** Facts about the methods *)

Module Engine.
Import Unicode Str TableFacts StrFacts CleanText.

(** *** Methods that only read *)

Lemma read_only_ret {A} (a : A) : read_only (ret a).
Proof. intros self. reflexivity. Qed.

Lemma read_only_raise {A} (e : exn) : read_only (@raise A e).
Proof. intros self. reflexivity. Qed.

Lemma read_only_bind {A B} (c : M A) (k : A -> M B) :
  read_only c -> (forall a, read_only (k a)) -> read_only (bind c k).
Proof.
  intros Hc Hk self. unfold bind.
  specialize (Hc self). destruct (c self) as [[a|e] self']; simpl in *; subst.
  - apply Hk.
  - reflexivity.
Qed.

Lemma read_only_get_self : read_only get_self.
Proof. intros self. reflexivity. Qed.

(** *** Methods that do not depend on the instance *)

Lemma pure_read_only {A} (c : M A) : pure c -> read_only c.
Proof. intros [r Hr] self. now rewrite Hr. Qed.

Lemma pure_ret {A} (a : A) : pure (ret a).
Proof. now exists (Return a). Qed.

Lemma pure_raise {A} (e : exn) : pure (@raise A e).
Proof. now exists (Raise e). Qed.

Lemma pure_bind {A B} (c : M A) (k : A -> M B) :
  pure c -> (forall a, pure (k a)) -> pure (bind c k).
Proof.
  intros [[a|e] Hr] Hk.
  - destruct (Hk a) as [r' Hr']. exists r'. intros self.
    unfold bind. rewrite Hr. apply Hr'.
  - exists (Raise e). intros self. unfold bind. now rewrite Hr.
Qed.

Create HintDb pure discriminated.
#[local] Hint Resolve pure_ret pure_raise : pure.

Lemma pure_py_get (obj : json) (key : str) (d : json) :
  pure (py_get obj key d).
Proof.
  destruct obj; simpl; auto with pure.
  destruct (lookup key members); auto with pure.
Qed.

Lemma pure_py_iter (v : json) : pure (py_iter v).
Proof. destruct v; simpl; auto with pure. Qed.

Lemma pure_call_clean_text (v : json) : pure (call_clean_text v).
Proof. destruct v; simpl; auto with pure. Qed.

#[local] Hint Resolve pure_py_get pure_py_iter pure_call_clean_text : pure.

Lemma pure_check_keywords_loop (m : str) (l : list json) :
  pure (check_keywords_loop m l).
Proof.
  induction l as [|k l IH]; simpl; auto with pure.
  apply pure_bind; auto with pure.
  intros k'. destruct (contains k' m); auto with pure.
Qed.

Lemma pure_check_keywords (m : str) (v : json) : pure (check_keywords m v).
Proof.
  unfold check_keywords. apply pure_bind; auto with pure.
  intros l. apply pure_check_keywords_loop.
Qed.

Lemma pure_get_response_loop (m : str) (items : list json) :
  pure (get_response_loop m items).
Proof.
  induction items as [|j items IH]; simpl; auto with pure.
  apply pure_bind; auto with pure. intros kws.
  apply pure_bind; [apply pure_check_keywords|]. intros hit.
  destruct hit; [|exact IH].
  apply pure_bind; auto with pure.
Qed.

Lemma get_response_loop_fst (m : str) (items : list json) self1 self2 :
  fst (get_response_loop m items self1) = fst (get_response_loop m items self2).
Proof.
  destruct (pure_get_response_loop m items) as [r Hr]. now rewrite !Hr.
Qed.

Lemma read_only_get_response (message : str) :
  read_only (get_response message).
Proof.
  unfold get_response.
  apply read_only_bind; [apply read_only_get_self|]. intros self.
  apply read_only_bind; [apply pure_read_only, pure_py_iter|]. intros items.
  apply pure_read_only, pure_get_response_loop.
Qed.

(** *** Keyword lists *)

(** The answer of [check_keywords] on a list of strings. *)
Lemma check_keywords_loop_strs (m : str) (ks : list str) self :
  check_keywords_loop m (map JStr ks) self =
  (Return (existsb (fun k => contains (clean_text k) m) ks), self).
Proof.
  induction ks as [|k ks IH]; [reflexivity|].
  simpl. unfold bind; simpl.
  destruct (contains (clean_text k) m); [reflexivity | exact IH].
Qed.

Lemma check_keywords_strs (message : str) (ks : list str) self :
  check_keywords message (str_list ks) self =
  (Return (existsb (fun k => contains (clean_text k) (clean_text message)) ks),
   self).
Proof.
  unfold check_keywords, str_list, bind; simpl.
  apply check_keywords_loop_strs.
Qed.

Lemma existsb_matches_any (message : str) (ks : list str) :
  existsb (fun k => contains (clean_text k) (clean_text message)) ks = true
  <-> matches_any message ks.
Proof.
  rewrite existsb_exists. unfold matches_any, keyword_matches.
  split; intros [k [Hin Hk]]; exists k; split; auto;
    now apply contains_occurs.
Qed.

Lemma existsb_matches_none (message : str) (ks : list str) :
  existsb (fun k => contains (clean_text k) (clean_text message)) ks = false
  <-> ~ matches_any message ks.
Proof.
  rewrite <- existsb_matches_any. now destruct (existsb _ ks).
Qed.

Lemma matches_any_clean (message : str) (ks : list str) :
  matches_any (clean_text message) ks <-> matches_any message ks.
Proof.
  unfold matches_any, keyword_matches. now rewrite clean_text_idem.
Qed.

(** *** Topic records *)

Lemma strings_of_items_map (items : list json) (l : list str) :
  strings_of_items items = Some l -> items = map JStr l.
Proof.
  revert l. induction items as [|j items IH]; simpl; intros l H.
  - now inversion H.
  - destruct j; try discriminate.
    destruct (strings_of_items items) as [l'|]; [|discriminate].
    inversion H; subst. simpl. now rewrite (IH l').
Qed.

Lemma strings_of_items_strs (l : list str) :
  strings_of_items (map JStr l) = Some l.
Proof. induction l as [|s l IH]; simpl; [reflexivity | now rewrite IH]. Qed.

(** What the two [get] calls of the loop find in a topic record. *)
Lemma entry_of_fields (j : json) (e : TopicEntry) self :
  entry_of j = Some e ->
  py_get j "keywords" (JArr []) self = (Return (str_list (keywords e)), self) /\
  py_get j "response" (JStr []) self = (Return (JStr (response e)), self).
Proof.
  destruct j as [| | | | | |members]; try discriminate. cbn [entry_of py_get].
  destruct (lookup "keywords" members) as [[| | | | |items|]|];
    try discriminate;
    destruct (lookup "response" members) as [[| | | |r| |]|];
    try discriminate;
    try (destruct (strings_of_items items) as [ks|] eqn:Hks; try discriminate;
         apply strings_of_items_map in Hks; subst items);
    intros H; inversion H; subst; simpl; split; reflexivity.
Qed.

Lemma entry_of_entry_json (e : TopicEntry) : entry_of (entry_json e) = Some e.
Proof.
  destruct e as [ks r]. unfold entry_json, entry_of, str_list; simpl.
  now rewrite strings_of_items_strs.
Qed.

Lemma entries_of_entry_json (kb : list TopicEntry) :
  entries_of (map entry_json kb) = Some kb.
Proof.
  induction kb as [|e kb IH]; [reflexivity|].
  cbn [map entries_of]. now rewrite entry_of_entry_json, IH.
Qed.

(** *** One turn of the scan *)

Lemma get_response_loop_step (m : str) (j : json) (e : TopicEntry)
      (rest : list json) self :
  entry_of j = Some e ->
  get_response_loop (clean_text m) (j :: rest) self =
  if existsb (fun k => contains (clean_text k) (clean_text m)) (keywords e)
  then (Return (JStr (response e), 0.95%float), self)
  else get_response_loop (clean_text m) rest self.
Proof.
  intros He. destruct (entry_of_fields j e self He) as [Hk Hr].
  cbn [get_response_loop]. unfold bind at 1. rewrite Hk.
  unfold bind at 1. rewrite check_keywords_strs, clean_text_idem.
  destruct (existsb _ (keywords e)); [|reflexivity].
  unfold bind. now rewrite Hr.
Qed.

Lemma get_response_loop_first (m : str) (pre : list TopicEntry)
      (e : TopicEntry) (post : list TopicEntry) (items : list json) self :
  entries_of items = Some (pre ++ e :: post)%list ->
  Forall (fun e' => ~ matches_any m (keywords e')) pre ->
  matches_any m (keywords e) ->
  get_response_loop (clean_text m) items self =
  (Return (JStr (response e), 0.95%float), self).
Proof.
  revert items. induction pre as [|p pre IH]; intros items Hitems Hpre He;
    (destruct items as [|j items]; [discriminate|]);
    simpl in Hitems;
    destruct (entry_of j) as [e0|] eqn:Hj; try discriminate;
    destruct (entries_of items) as [es|] eqn:Hes; try discriminate;
    inversion Hitems; subst; rewrite (get_response_loop_step _ _ _ _ _ Hj).
  - apply existsb_matches_any in He. now rewrite He.
  - inversion Hpre as [|? ? Hp Hpre']; subst.
    apply existsb_matches_none in Hp. rewrite Hp. now apply IH.
Qed.

Lemma get_response_loop_none (m : str) (kb : list TopicEntry)
      (items : list json) self :
  entries_of items = Some kb ->
  Forall (fun e => ~ matches_any m (keywords e)) kb ->
  get_response_loop (clean_text m) items self =
  (Return (JStr default_response, 0.3%float), self).
Proof.
  revert items. induction kb as [|e kb IH]; intros items Hitems Hkb;
    destruct items as [|j items]; try reflexivity; simpl in Hitems;
    try (destruct (entry_of j); [destruct (entries_of items)|]; discriminate).
  destruct (entry_of j) as [e0|] eqn:Hj; try discriminate.
  destruct (entries_of items) as [es|] eqn:Hes; try discriminate.
  inversion Hitems; subst. rewrite (get_response_loop_step _ _ _ _ _ Hj).
  inversion Hkb as [|? ? Hp Hkb']; subst.
  apply existsb_matches_none in Hp. rewrite Hp. now apply IH.
Qed.

Lemma get_response_list (m : str) (file : str) (items : list json) :
  get_response m {| intents_file := file; intents := JArr items |} =
  get_response_loop (clean_text m) items
    {| intents_file := file; intents := JArr items |}.
Proof. reflexivity. Qed.

Lemma get_response_first (m : str) (pre : list TopicEntry) (e : TopicEntry)
      (post : list TopicEntry) self :
  knowledge_base self = Some (pre ++ e :: post)%list ->
  Forall (fun e' => ~ matches_any m (keywords e')) pre ->
  matches_any m (keywords e) ->
  get_response m self = (Return (JStr (response e), 0.95%float), self).
Proof.
  destruct self as [file v]. unfold knowledge_base; simpl.
  destruct v; try discriminate. intros Hkb Hpre He.
  rewrite get_response_list. now apply get_response_loop_first with pre post.
Qed.

End Engine.

(* ================================================================= *)
(** ** More on the scan and the loader *)

Module Scan.
Import Unicode Str TableFacts StrFacts CleanText Engine.

(** Topic records none of whose keywords matches are passed over. *)
Lemma get_response_loop_pass (m : str) (pre : list TopicEntry)
      (pre_items rest : list json) self :
  entries_of pre_items = Some pre ->
  Forall (fun e => ~ matches_any m (keywords e)) pre ->
  get_response_loop (clean_text m) (pre_items ++ rest)%list self =
  get_response_loop (clean_text m) rest self.
Proof.
  revert pre. induction pre_items as [|j items IH]; intros pre Hpre Hno;
    [reflexivity|].
  simpl in Hpre.
  destruct (entry_of j) as [e|] eqn:Hj; [|discriminate].
  destruct (entries_of items) as [es|] eqn:Hes; [|discriminate].
  inversion Hpre; subst. inversion Hno as [|? ? He Hes']; subst.
  change ((j :: items) ++ rest)%list with (j :: (items ++ rest))%list.
  rewrite (get_response_loop_step _ _ _ _ _ Hj).
  apply existsb_matches_none in He. rewrite He. now apply IH with es.
Qed.

(** The scan depends on the list only through what each turn does. *)
Lemma get_response_loop_tail (m : str) (pre a b : list json) :
  (forall self, get_response_loop m a self = get_response_loop m b self) ->
  forall self,
    get_response_loop m (pre ++ a)%list self =
    get_response_loop m (pre ++ b)%list self.
Proof.
  intros Hab. induction pre as [|j pre IH]; intros self; [apply Hab|].
  cbn [app get_response_loop]. unfold bind.
  destruct (py_get j "keywords" (JArr []) self) as [[kws|ex] self1];
    [|reflexivity].
  destruct (check_keywords m kws self1) as [[[|]|ex] self2];
    [reflexivity | apply IH | reflexivity].
Qed.

Lemma get_response_loop_no_keywords (m : str)
      (members : list (str * json)) (rest : list json) self :
  lookup "keywords" members = None ->
  get_response_loop m (JObj members :: rest) self =
  get_response_loop m rest self.
Proof.
  intros H. cbn [get_response_loop py_get]. now rewrite H.
Qed.

Lemma get_response_loop_empty_keywords (m : str)
      (members : list (str * json)) (rest : list json) self :
  get_response_loop m (JObj ((py "keywords", JArr []) :: members) :: rest) self =
  get_response_loop m rest self.
Proof. reflexivity. Qed.

(** The earliest entry that satisfies a decidable property. *)
Lemma first_split {A} (P : A -> Prop) (p : A -> bool) (l : list A) :
  (forall x, p x = true <-> P x) ->
  Exists P l ->
  exists pre x post,
    l = (pre ++ x :: post)%list /\ Forall (fun y => ~ P y) pre /\ P x.
Proof.
  intros Hp. induction 1 as [x l Hx | x l Hl IH].
  - exists [], x, l. now repeat split.
  - destruct (p x) eqn:Hpx.
    + exists [], x, l. repeat split; [constructor | now apply Hp].
    + destruct IH as [pre [y [post [-> [Hpre Hy]]]]].
      exists (x :: pre), y, post. repeat split; [|assumption].
      constructor; [|assumption].
      intros HP. apply Hp in HP. congruence.
Qed.

(** What [load_intents] does, source by source. *)
Lemma load_intents_cases (fs : filesystem) self :
  load_intents fs self =
  match fs (intents_file self) with
  | Missing | Malformed =>
      (Return tt, {| intents_file := intents_file self; intents := JArr [] |})
  | Denied => (Raise PermissionError, self)
  | Directory => (Raise IsADirectoryError, self)
  | Undecodable => (Raise UnicodeDecodeError, self)
  | NotDirectory => (Raise NotADirectoryError, self)
  | Unreadable => (Raise OSError, self)
  | TooDeep => (Raise RecursionError, self)
  | HugeInteger => (Raise ValueError, self)
  | Document (JObj members) =>
      let v := match lookup "intents" members with
               | Some v => v
               | None => JArr []
               end in
      let self' := {| intents_file := intents_file self; intents := v |} in
      match v with
      | JArr _ | JObj _ | JStr _ => (Return tt, self')
      | _ => (Raise TypeError, self')
      end
  | Document _ => (Raise AttributeError, self)
  end.
Proof.
  unfold load_intents, try_except, bind, open_and_load; simpl.
  destruct (fs (intents_file self)) as [| | | | | | | | |data];
    try reflexivity.
  destruct data as [| | | | | |members]; try reflexivity.
  simpl. destruct (lookup "intents" members) as [[]|]; reflexivity.
Qed.

(** *** Concatenation of words *)

Lemma concat_push_word (w : str) (ws : list str) :
  concat (push_word w ws) = w ++ concat ws.
Proof. destruct w; reflexivity. Qed.

Lemma drop_spaces_scan_words (s : str) :
  drop_spaces s = fst (scan_words s) ++ concat (snd (scan_words s)).
Proof.
  induction s as [|c s IH]; [reflexivity|].
  cbn [drop_spaces scan_words]. rewrite IH.
  destruct (scan_words s) as [w ws].
  destruct (is_space c); cbn [fst snd].
  - now rewrite concat_push_word.
  - reflexivity.
Qed.

Lemma drop_spaces_split (s : str) : drop_spaces s = concat (split s).
Proof.
  rewrite drop_spaces_scan_words. unfold split.
  destruct (scan_words s) as [w ws]; cbn [fst snd].
  now rewrite concat_push_word.
Qed.

Lemma drop_spaces_clean_text (x : str) :
  drop_spaces (clean_text x) = concat (map lower (split x)).
Proof. now rewrite drop_spaces_split, split_clean_text. Qed.

End Scan.

Ltac matches_by_evaluation :=
  apply Engine.existsb_matches_any; vm_compute; reflexivity.

Ltac no_match_by_evaluation :=
  apply Engine.existsb_matches_none; vm_compute; reflexivity.


(* ================================================================= *)
(** ** More on normalisation *)

Module TextFacts.
Import Unicode Str TableFacts StrFacts CleanText Scan.

Lemma clean_text_normal (x : str) : clean_text x = normal (lower x).
Proof. unfold clean_text, normal. now rewrite split_strip. Qed.

(** *** The shape of a joined text *)

Lemma join_cons (w : str) (ws : list str) :
  join " " (w :: ws) = w ++ glue ws.
Proof. destruct ws; [now rewrite app_nil_r | reflexivity]. Qed.

Lemma split_cons_word (c : N) (s : str) :
  is_space c = false ->
  split (c :: s) = (c :: fst (scan_words s)) :: snd (scan_words s).
Proof.
  intros Hc. unfold split. cbn [scan_words].
  destruct (scan_words s) as [w ws]. now rewrite Hc.
Qed.





Lemma normal_empty_split (s : str) :
  normal s = [] <-> split s = [].
Proof.
  unfold normal. split; intros H; [|now rewrite H].
  pose proof (split_words s) as Hw.
  destruct (split s) as [|w ws]; [reflexivity|]. exfalso.
  inversion Hw as [|? ? [Hne _] _]; subst.
  rewrite join_cons in H. destruct w; [now apply Hne | discriminate].
Qed.

(** *** Texts of whitespace *)

Lemma split_nil_all_space (s : str) :
  split s = [] <-> all_space s = true.
Proof.
  induction s as [|c s IH]; simpl; [now split|].
  destruct (is_space c) eqn:Hc; simpl.
  - now rewrite split_space.
  - rewrite (split_cons_word _ _ Hc). split; discriminate.
Qed.

Lemma all_space_word_app (p r : str) :
  no_space p = true -> p <> [] -> all_space (p ++ r) = false.
Proof.
  destruct p as [|c p]; [contradiction|]. cbn [no_space app all_space].
  intros H _. apply andb_true_iff in H as [Hc _].
  apply negb_true_iff in Hc. now rewrite Hc.
Qed.

Lemma all_space_lower_from (before s : str) :
  all_space (lower_from before s) = all_space s.
Proof.
  revert before. induction s as [|c s IH]; intros before; [reflexivity|].
  cbn [lower_from all_space]. destruct (is_space c) eqn:Hc.
  - rewrite (lower_at_space _ _ _ Hc). cbn [app all_space].
    now rewrite Hc, IH.
  - apply all_space_word_app; now apply lower_at_outputs.
Qed.

Lemma all_space_lower (s : str) : all_space (lower s) = all_space s.
Proof. apply all_space_lower_from. Qed.

Lemma clean_text_empty (x : str) :
  clean_text x = [] <-> all_space x = true.
Proof.
  rewrite clean_text_normal, normal_empty_split, split_nil_all_space.
  now rewrite all_space_lower.
Qed.

Lemma rstrip_empty (s : str) :
  rstrip s = [] <-> all_space s = true.
Proof.
  induction s as [|c s IH]; simpl; [now split|].
  destruct (rstrip s) as [|d r] eqn:Hr.
  - destruct (is_space c); simpl.
    + rewrite <- IH. now split.
    + split; discriminate.
  - rewrite andb_true_iff, <- IH. split; [discriminate | intros [_ H]; discriminate].
Qed.

Lemma all_space_lstrip (s : str) : all_space (lstrip s) = all_space s.
Proof.
  induction s as [|c s IH]; simpl; [reflexivity|].
  destruct (is_space c) eqn:Hc; simpl; [assumption | now rewrite Hc].
Qed.

Lemma strip_empty (s : str) :
  strip s = [] <-> all_space s = true.
Proof. unfold strip. now rewrite rstrip_empty, all_space_lstrip. Qed.

Lemma clean_text_strip (s : str) : clean_text (strip s) = clean_text s.
Proof.
  rewrite !clean_text_words. now rewrite split_strip.
Qed.

(** *** Texts with the same words *)


End TextFacts.

(* ================================================================= *)
(** ** Normal forms and occurrences *)

Module NormalForm.
Import Unicode Str TableFacts StrFacts CleanText Scan TextFacts.


(** *** Texts that are their own normal form *)



Lemma clean_text_settled (x : str) : forallb settled (clean_text x) = true.
Proof.
  rewrite clean_text_words. apply settled_join, Forall_forall.
  intros w Hin. apply in_map_iff in Hin. destruct Hin as [w' [<- _]].
  apply lower_from_settled.
Qed.

Lemma lower_clean_text (x : str) : lower (clean_text x) = clean_text x.
Proof. apply lower_from_fixed, clean_text_settled. Qed.

Lemma clean_text_shape (x : str) :
  lower (clean_text x) = clean_text x /\
  head_space (clean_text x) = false /\
  last_space (clean_text x) = false /\
  single_blanks (clean_text x) = true.
Proof.
  pose proof (words_lower _ (split_words x)) as Hw.
  split; [apply lower_clean_text|].
  rewrite clean_text_words. repeat split.
  - now apply head_space_join.
  - now apply last_space_join.
  - now apply single_blanks_join.
Qed.


(** *** An occurrence survives normalisation *)







Lemma occurs_length (k m : str) :
  occurs k m -> List.length k <= List.length m.
Proof. intros [a [b ->]]. rewrite !length_app. lia. Qed.

Lemma occurs_empty (k : str) : occurs k [] -> k = [].
Proof.
  intros H. apply occurs_length in H. destruct k; [reflexivity|].
  simpl in H. lia.
Qed.

End NormalForm.

(* ================================================================= *)
(** ** More on the engine *)

Module EngineFacts.
Import Unicode Str TableFacts StrFacts CleanText Engine Scan TextFacts NormalForm.

Lemma confidence_distinct : 0.95%float <> 0.3%float.
Proof.
  intros H. apply (f_equal (fun x => PrimFloat.ltb x 0.5%float)) in H.
  vm_compute in H. discriminate.
Qed.

Lemma py_get_obj (members : list (str * json)) (key : str) (d : json)
      self :
  py_get (JObj members) key d self = (Return (member_or key d members), self).
Proof. unfold py_get, member_or. now destruct (lookup key members). Qed.

Lemma check_keywords_state (m : str) (v : json) self :
  snd (check_keywords m v self) = self.
Proof. apply pure_read_only, pure_check_keywords. Qed.

(** One turn of the scan on any record. *)
Lemma get_response_loop_cons (m : str) (j : json) (rest : list json) self :
  get_response_loop m (j :: rest) self =
  match j with
  | JObj members =>
      match fst (check_keywords m (member_or "keywords" (JArr []) members) self)
      with
      | Return true =>
          (Return (member_or "response" (JStr []) members,
                   0.95%float), self)
      | Return false => get_response_loop m rest self
      | Raise e => (Raise e, self)
      end
  | _ => (Raise AttributeError, self)
  end.
Proof.
  destruct j as [| | | | | |members]; try reflexivity.
  cbn [get_response_loop]. unfold bind at 1. rewrite py_get_obj.
  unfold bind at 1.
  pose proof (check_keywords_state m (member_or "keywords" (JArr []) members)
                self) as Hs.
  destruct (check_keywords m (member_or "keywords" (JArr []) members) self)
    as [[[|]|e] s1]; simpl in Hs; subst s1; cbn [fst]; try reflexivity.
  unfold bind. now rewrite py_get_obj.
Qed.

(** The scan answers with a matched record's response and 0.95, or with
    the default and 0.3. *)
Lemma get_response_loop_answers (m : str) (items : list json) self
      (r : json) (c : float) self' :
  get_response_loop m items self = (Return (r, c), self') ->
  (c = 0.3%float /\ r = JStr default_response) \/
  (c = 0.95%float /\
   exists members, In (JObj members) items /\
                   r = member_or "response" (JStr []) members).
Proof.
  induction items as [|j items IH].
  - intros H. inversion H. now left.
  - rewrite get_response_loop_cons.
    destruct j as [| | | | | |members]; try discriminate.
    destruct (fst (check_keywords m _ self)) as [[|]|e]; try discriminate.
    + intros H. inversion H; subst. right. split; [reflexivity|].
      exists members. split; [now left | reflexivity].
    + intros H. destruct (IH H) as [Hd | [Hc [mem [Hin Hr]]]]; [now left|].
      right. split; [assumption|]. exists mem. split; [now right | assumption].
Qed.

(** Records after the one that decides the answer are not looked at. *)
Lemma get_response_loop_app (m : str) (items more : list json) self :
  (fst (get_response_loop m items self) <>
   Return (JStr default_response, 0.3%float) ->
   get_response_loop m (items ++ more)%list self =
   get_response_loop m items self) /\
  (fst (get_response_loop m items self) =
   Return (JStr default_response, 0.3%float) ->
   get_response_loop m (items ++ more)%list self =
   get_response_loop m more self).
Proof.
  induction items as [|j items [IHa IHb]].
  - split; [intros H; now contradiction H | reflexivity].
  - change ((j :: items) ++ more)%list with (j :: (items ++ more))%list.
    rewrite !get_response_loop_cons.
    destruct j as [| | | | | |members]; try (split; [reflexivity | discriminate]).
    destruct (fst (check_keywords m _ self)) as [[|]|e].
    + split; [reflexivity|]. cbn [fst]. intros H. exfalso.
      apply confidence_distinct. congruence.
    + now split.
    + split; [reflexivity | discriminate].
Qed.

(** On a list of topic records the scan always returns. *)
Lemma get_response_loop_total (m : str) (kb : list TopicEntry)
      (items : list json) self :
  entries_of items = Some kb ->
  exists r c,
    get_response_loop (clean_text m) items self = (Return (JStr r, c), self) /\
    ((c = 0.95%float /\
      Exists (fun e => matches_any m (keywords e) /\ r = response e) kb) \/
     (c = 0.3%float /\ r = default_response /\
      Forall (fun e => ~ matches_any m (keywords e)) kb)).
Proof.
  revert kb. induction items as [|j items IH]; intros kb Hkb.
  - inversion Hkb; subst. exists default_response, 0.3%float.
    split; [reflexivity|]. right. now repeat split.
  - simpl in Hkb.
    destruct (entry_of j) as [e|] eqn:Hj; [|discriminate].
    destruct (entries_of items) as [es|] eqn:Hes; [|discriminate].
    inversion Hkb; subst. rewrite (get_response_loop_step _ _ _ _ _ Hj).
    destruct (existsb _ (keywords e)) eqn:He.
    + exists (response e), 0.95%float. split; [reflexivity|]. left.
      split; [reflexivity|]. apply Exists_cons_hd.
      split; [now apply existsb_matches_any | reflexivity].
    + destruct (IH es eq_refl) as [r [c [Hrun Hcases]]].
      exists r, c. split; [assumption|].
      apply existsb_matches_none in He.
      destruct Hcases as [[Hc Hex] | [Hc [Hr Hall]]].
      * left. split; [assumption | now right].
      * right. repeat split; try assumption. now constructor.
Qed.

Lemma get_response_total (m : str) (kb : list TopicEntry) self :
  knowledge_base self = Some kb ->
  exists r c,
    get_response m self = (Return (JStr r, c), self) /\
    ((c = 0.95%float /\
      Exists (fun e => matches_any m (keywords e) /\ r = response e) kb) \/
     (c = 0.3%float /\ r = default_response /\
      Forall (fun e => ~ matches_any m (keywords e)) kb)).
Proof.
  destruct self as [file v]. unfold knowledge_base; simpl.
  destruct v; try discriminate. intros Hkb.
  rewrite get_response_list. now apply get_response_loop_total.
Qed.

(** The message counts through its normal form only. *)
Lemma get_response_clean (m : str) self :
  get_response (clean_text m) self = get_response m self.
Proof. unfold get_response. now rewrite clean_text_idem. Qed.


(** A blank message is matched by blank keywords only. *)
Lemma blank_message_matches (m : str) (ks : list str) :
  all_space m = true ->
  matches_any m ks -> exists k, In k ks /\ all_space k = true.
Proof.
  intros Hm [k [Hin Hk]]. exists k. split; [assumption|].
  unfold keyword_matches in Hk.
  rewrite (proj2 (clean_text_empty m) Hm) in Hk.
  apply occurs_empty in Hk. now apply clean_text_empty.
Qed.

(** What the constructor and the loader leave in [self.intents]. *)
Lemma init_cases (fs : filesystem) (file : str) :
  init fs file =
  match fs file with
  | Missing | Malformed => Return (fresh file)
  | Denied => Raise PermissionError
  | Directory => Raise IsADirectoryError
  | Undecodable => Raise UnicodeDecodeError
  | NotDirectory => Raise NotADirectoryError
  | Unreadable => Raise OSError
  | TooDeep => Raise RecursionError
  | HugeInteger => Raise ValueError
  | Document (JObj members) =>
      let v := member_or "intents" (JArr []) members in
      if sized v then Return {| intents_file := file; intents := v |}
      else Raise TypeError
  | Document _ => Raise AttributeError
  end.
Proof.
  unfold init, bind. rewrite load_intents_cases. cbn [intents_file].
  destruct (fs file) as [| | | | | | | | |data]; try reflexivity.
  destruct data as [| | | | | |members]; try reflexivity.
  unfold member_or.
  destruct (lookup "intents" members) as [[]|]; reflexivity.
Qed.

End EngineFacts.

(* ================================================================= *)
(** ** Facts about the front end *)

Module AppFacts.
Import Unicode Str TableFacts StrFacts CleanText Engine Scan TextFacts NormalForm EngineFacts.

(** The path of a request whose body is an object with a [message]. *)
Lemma chat_try_object (chatbot : option HealthChatbot)
      (members : list (str * json)) (v : json) :
  lookup "message" members = Some v ->
  chat_try chatbot (Json (JObj members)) =
  match call_strip v with
  | None => (None, chatbot)
  | Some [] => (Some empty_message_reply, chatbot)
  | Some user_message =>
      match chatbot with
      | Some bot =>
          match get_response user_message bot with
          | (Return (bot_response, confidence), bot') =>
              (Some (success_reply bot_response confidence), Some bot')
          | (Raise _, bot') => (None, Some bot')
          end
      | None => (Some (success_reply (JStr unavailable) 0%float), None)
      end
  end.
Proof.
  intros H. destruct members as [|kv members]; [discriminate|].
  unfold chat_try. cbn [truthy negb has_message item_message].
  now rewrite H.
Qed.

Lemma get_response_strip (s : str) self :
  get_response (strip s) self = get_response s self.
Proof.
  now rewrite <- (get_response_clean (strip s)), clean_text_strip,
    get_response_clean.
Qed.

Lemma strip_not_blank (s : str) :
  all_space s = false ->
  exists c r, strip s = c :: r.
Proof.
  intros H. destruct (strip s) as [|c r] eqn:Hs; [|now exists c, r].
  apply strip_empty in Hs. congruence.
Qed.

(** The path of an accepted message when the engine is there. *)
Lemma chat_accepted (bot : HealthChatbot) (members : list (str * json))
      (s : str) :
  lookup "message" members = Some (JStr s) ->
  all_space s = false ->
  chat (Some bot) (Json (JObj members)) =
  (match fst (get_response s bot) with
   | Return (r, c) => success_reply r c
   | Raise _ => error_reply
   end, Some bot).
Proof.
  intros Hm Hs. unfold chat. rewrite (chat_try_object _ _ _ Hm).
  cbn [call_strip]. destruct (strip_not_blank s Hs) as [c [r Hstrip]].
  rewrite <- (get_response_strip s bot), Hstrip.
  pose proof (read_only_get_response (c :: r) bot) as Hro.
  destruct (get_response (c :: r) bot) as [[[r0 c0]|e] bot'];
    simpl in Hro; subst bot'; reflexivity.
Qed.

Lemma startup_cases (fs : filesystem) :
  startup fs =
  if unloadable (fs default_intents_file) then None
  else Some {| intents_file := default_intents_file;
               intents :=
                 match fs default_intents_file with
                 | Document (JObj members) =>
                     member_or "intents" (JArr []) members
                 | _ => JArr []
                 end |}.
Proof.
  unfold startup. rewrite init_cases.
  destruct (fs default_intents_file) as [| | | | | | | | |data];
    try reflexivity.
  destruct data as [| | | | | |members]; try reflexivity.
  cbn [unloadable]. now destruct (sized _).
Qed.

Lemma py_len_sized (v : json) self :
  sized v = true -> exists n, py_len v self = (Return n, self).
Proof.
  destruct v; try discriminate; intros _; eexists; reflexivity.
Qed.

End AppFacts.


(* ================================================================= *)
(** ** The properties of the specification *)

Import Unicode Str TableFacts StrFacts CleanText Engine Scan.
Import TextFacts NormalForm EngineFacts AppFacts.

(** C1 -- first match wins.  Whenever some entry of the knowledge base
    has a keyword whose normalisation occurs in the normalised message,
    the knowledge base splits at the earliest such entry [e] (no entry
    before it matches) and [get_response] returns the response of [e]
    with confidence 0.95. *)
Theorem get_response_first_match (self : HealthChatbot) (message : str)
        (kb : list TopicEntry) :
  knowledge_base self = Some kb ->
  Exists (fun e => matches_any message (keywords e)) kb ->
  exists pre e post,
    kb = (pre ++ e :: post)%list /\
    Forall (fun e' => ~ matches_any message (keywords e')) pre /\
    matches_any message (keywords e) /\
    get_response message self =
    (Return (JStr (response e), 0.95%float), self).
Proof.
  intros Hkb Hex.
  destruct (first_split _
              (fun e => existsb (fun k => contains (clean_text k)
                                            (clean_text message))
                          (keywords e))
              kb (fun e => existsb_matches_any message (keywords e)) Hex)
    as [pre [e [post [-> [Hpre He]]]]].
  exists pre, e, post. repeat split; try assumption.
  now apply get_response_first with pre post.
Qed.

Lemma get_response_first_match_witness :
  exists pre e post,
    scenario_kb = (pre ++ e :: post)%list /\
    Forall (fun e' => ~ matches_any "How to treat a burn?" (keywords e')) pre /\
    matches_any "How to treat a burn?" (keywords e) /\
    get_response "How to treat a burn?" scenario_bot =
    (Return (JStr (response e), 0.95%float), scenario_bot).
Proof.
  apply (get_response_first_match scenario_bot "How to treat a burn?"
           scenario_kb).
  - reflexivity.
  - right. left. matches_by_evaluation.
Defined.

(** C2 -- the fallback.  When no entry of the knowledge base has a
    keyword whose normalisation occurs in the normalised message (the
    empty knowledge base included), [get_response] returns the default
    response with confidence 0.3. *)
Theorem get_response_no_match (self : HealthChatbot) (message : str)
        (kb : list TopicEntry) :
  knowledge_base self = Some kb ->
  Forall (fun e => ~ matches_any message (keywords e)) kb ->
  get_response message self = (Return (JStr default_response, 0.3%float), self).
Proof.
  destruct self as [file v]. unfold knowledge_base; simpl.
  destruct v; try discriminate. intros Hkb Hno.
  rewrite get_response_list. now apply get_response_loop_none with kb.
Qed.

Lemma get_response_no_match_witness :
  get_response "Tell me about diabetes" scenario_bot =
  (Return (JStr default_response, 0.3%float), scenario_bot) /\
  get_response "Tell me about diabetes" (fresh default_intents_file) =
  (Return (JStr default_response, 0.3%float), fresh default_intents_file).
Proof.
  split.
  - apply (get_response_no_match scenario_bot "Tell me about diabetes"
             scenario_kb); [reflexivity|].
    repeat constructor; no_match_by_evaluation.
  - apply (get_response_no_match (fresh default_intents_file)
             "Tell me about diabetes" []); [reflexivity | constructor].
Defined.

(** C3, as the code has it -- [load_intents] recovers from a missing file
    and from a file that is not JSON: it returns normally and leaves
    [self.intents] empty. *)
Theorem load_intents_recovers (fs : filesystem) (self : HealthChatbot) :
  fs (intents_file self) = Missing \/ fs (intents_file self) = Malformed ->
  load_intents fs self =
  (Return tt, {| intents_file := intents_file self; intents := JArr [] |}).
Proof.
  intros [H|H]; rewrite load_intents_cases, H; reflexivity.
Qed.

Lemma load_intents_recovers_witness :
  load_intents (fun _ => Malformed) scenario_bot =
  (Return tt, fresh default_intents_file).
Proof.
  apply (load_intents_recovers (fun _ => Malformed) scenario_bot).
  right. reflexivity.
Defined.

(** C3, as stated, fails: a well-formed JSON document whose top level is
    a list makes [load_intents] raise [AttributeError] to its caller, and
    so does a file that cannot be opened for lack of permission
    ([PermissionError]). *)
Lemma load_intents_raises :
  load_intents (fun _ => Document (JArr [entry_json fever_entry]))
               (fresh default_intents_file) =
  (Raise AttributeError, fresh default_intents_file) /\
  load_intents (fun _ => Denied) (fresh default_intents_file) =
  (Raise PermissionError, fresh default_intents_file).
Proof. split; reflexivity. Qed.



(** C4, as stated, fails: a source that cannot be parsed because it is
    not UTF-8 text makes the constructor raise [UnicodeDecodeError],
    where it returns an engine for a missing source. *)
Lemma init_undecodable_raises :
  init (fun _ => Undecodable) default_intents_file = Raise UnicodeDecodeError /\
  init (fun _ => Missing) default_intents_file =
  Return (fresh default_intents_file).
Proof. split; reflexivity. Qed.

(** C5 -- [check_keywords] on a message and a list of keywords returns
    [True] exactly when some keyword, normalised, is a contiguous
    substring of the normalised message, and [False] otherwise; it
    returns [False] on the empty list; containment ignores word
    boundaries: the keyword "cut" matches a message containing
    "scuttle". *)
Theorem check_keywords_correct (message : str) (ks : list str)
        (self : HealthChatbot) :
  (check_keywords message (str_list ks) self = (Return true, self)
   <-> matches_any message ks) /\
  (check_keywords message (str_list ks) self = (Return false, self)
   <-> ~ matches_any message ks) /\
  check_keywords message (str_list []) self = (Return false, self) /\
  check_keywords "They will scuttle the ship" (str_list [py "cut"]) self =
  (Return true, self).
Proof.
  rewrite check_keywords_strs.
  rewrite <- existsb_matches_none, <- existsb_matches_any.
  repeat split; congruence.
Qed.

(** C6 -- [clean_text] is idempotent. *)
Theorem clean_text_idempotent (x : str) :
  clean_text (clean_text x) = clean_text x.
Proof. apply clean_text_idem. Qed.

(** C7 -- [clean_text] lower-cases the text and joins its words (the
    maximal whitespace-free runs) with single blanks: the result is
    unchanged by [lower] and holds no code point [lower] would change,
    it has no leading and no trailing whitespace, each of its whitespace
    characters is one blank between two words, its words are the
    lower-cased words of the text, and nothing but whitespace is
    dropped.  Whitespace is what Python takes for it: a text of one code
    point normalises to the empty text exactly for the 29 code points
    listed.  In particular "  Fever  AND Cold " and "fever and cold"
    have the same normal form. *)
Theorem clean_text_normal_form (x : str) :
  clean_text x = join " " (map lower (split x)) /\
  Forall word (split x) /\
  lower (clean_text x) = clean_text x /\
  forallb settled (clean_text x) = true /\
  head_space (clean_text x) = false /\
  last_space (clean_text x) = false /\
  single_blanks (clean_text x) = true /\
  split (clean_text x) = map lower (split x) /\
  drop_spaces (clean_text x) = concat (map lower (split x)) /\
  (forall c : N,
      clean_text [c] = [] <->
      In c [9; 10; 11; 12; 13; 28; 29; 30; 31; 32; 133; 160; 5760;
            8192; 8193; 8194; 8195; 8196; 8197; 8198; 8199; 8200; 8201;
            8202; 8232; 8233; 8239; 8287; 12288]%N) /\
  clean_text "The QUICK brown fox JUMPS over the LAZY dog" =
  "the quick brown fox jumps over the lazy dog" /\
  clean_text "ÉCOLE ΑΣ Σ" = "école ας σ" /\
  clean_text "  Fever  AND Cold " = clean_text "fever and cold".
Proof.
  pose proof (words_lower _ (split_words x)) as Hw.
  destruct (clean_text_shape x) as [Hl [Hh [Ht Hb]]].
  repeat split; try assumption.
  - apply clean_text_words.
  - apply split_words.
  - apply clean_text_settled.
  - apply split_clean_text.
  - apply drop_spaces_clean_text.
  - intros H. apply clean_text_empty in H. cbn [all_space] in H.
    rewrite andb_true_r in H. now apply is_space_in in H.
  - intros H. apply clean_text_empty. cbn [all_space].
    rewrite andb_true_r. now apply is_space_in.
Qed.

(** C8 -- a keyword that normalises to the empty string (an empty or
    whitespace-only keyword) makes [check_keywords] return [True] for
    every message, the empty one included; an entry carrying it matches
    every input, and [get_response] returns its response with
    confidence 0.95 for every message no earlier entry matches. *)
Theorem empty_keyword_matches_everything (ks : list str) (k : str) :
  In k ks ->
  clean_text k = [] ->
  (forall message self,
      check_keywords message (str_list ks) self = (Return true, self)) /\
  check_keywords [] (str_list ks) (fresh default_intents_file) =
  (Return true, fresh default_intents_file) /\
  (forall message, matches_any message ks) /\
  (forall self message pre e post,
      knowledge_base self = Some (pre ++ e :: post)%list ->
      keywords e = ks ->
      Forall (fun e' => ~ matches_any message (keywords e')) pre ->
      get_response message self =
      (Return (JStr (response e), 0.95%float), self)).
Proof.
  intros Hin Hk.
  assert (Hall : forall message, matches_any message ks).
  { intros message. exists k. split; [assumption|].
    unfold keyword_matches. rewrite Hk.
    apply contains_occurs, contains_empty. }
  assert (Hck : forall message self,
             check_keywords message (str_list ks) self = (Return true, self)).
  { intros message self. rewrite check_keywords_strs.
    now rewrite (proj2 (existsb_matches_any message ks) (Hall message)). }
  repeat split; auto.
  intros self message pre e post Hkb <- Hpre.
  now apply get_response_first with pre post.
Qed.

Lemma empty_keyword_matches_everything_witness :
  (forall message self,
      check_keywords message (str_list [py "fever"; py "   "]) self =
      (Return true, self)) /\
  check_keywords [] (str_list [py "fever"; py "   "])
                 (fresh default_intents_file) =
  (Return true, fresh default_intents_file) /\
  (forall message, matches_any message [py "fever"; py "   "]) /\
  (forall self message pre e post,
      knowledge_base self = Some (pre ++ e :: post)%list ->
      keywords e = [py "fever"; py "   "] ->
      Forall (fun e' => ~ matches_any message (keywords e')) pre ->
      get_response message self =
      (Return (JStr (response e), 0.95%float), self)).
Proof.
  apply (empty_keyword_matches_everything [py "fever"; py "   "] "   ").
  - right. left. reflexivity.
  - reflexivity.
Defined.

(** C9 -- defaults for absent fields.  During matching a record without
    a [keywords] field behaves as the same record with an empty keyword
    list, and as if it were not in the list at all: it never matches.  A
    matched record without a [response] field yields the empty string,
    with confidence 0.95.  A loaded document without the top-level
    [intents] field leaves the knowledge base empty. *)
Theorem missing_fields_default :
  (forall message file pre members rest,
      lookup "keywords" members = None ->
      let bot items := {| intents_file := file; intents := JArr items |} in
      fst (get_response message (bot (pre ++ JObj members :: rest)%list)) =
      fst (get_response message
             (bot (pre ++ JObj ((py "keywords", JArr []) :: members) :: rest)%list))
      /\
      fst (get_response message (bot (pre ++ JObj members :: rest)%list)) =
      fst (get_response message (bot (pre ++ rest)%list))) /\
  (forall message file pre_items pre members ks rest,
      entries_of pre_items = Some pre ->
      Forall (fun e => ~ matches_any message (keywords e)) pre ->
      lookup "keywords" members = Some (str_list ks) ->
      lookup "response" members = None ->
      matches_any message ks ->
      let bot :=
        {| intents_file := file;
           intents := JArr (pre_items ++ JObj members :: rest)%list |} in
      get_response message bot =
      (Return (JStr [], 0.95%float), bot)) /\
  (forall fs self members,
      fs (intents_file self) = Document (JObj members) ->
      lookup "intents" members = None ->
      load_intents fs self =
      (Return tt, {| intents_file := intents_file self; intents := JArr [] |})).
Proof.
  split; [|split].
  - intros message file pre members rest Hk. cbv beta zeta.
    rewrite !get_response_list.
    set (self0 := {| intents_file := file;
                     intents := JArr (pre ++ JObj members :: rest)%list |}).
    assert (Hskip : get_response_loop (clean_text message)
                      (pre ++ JObj members :: rest)%list self0 =
                    get_response_loop (clean_text message)
                      (pre ++ rest)%list self0).
    { apply get_response_loop_tail. intros self.
      now apply get_response_loop_no_keywords. }
    split.
    + rewrite Hskip.
      rewrite (get_response_loop_fst _
                 (pre ++ JObj ((py "keywords", JArr []) :: members) :: rest)%list
                 _ self0).
      f_equal. symmetry. apply get_response_loop_tail. intros self.
      apply get_response_loop_empty_keywords.
    + rewrite Hskip. apply get_response_loop_fst.
  - intros message file pre_items pre members ks rest Hpre Hno Hk Hr Hm.
    cbv beta zeta. rewrite get_response_list.
    rewrite (get_response_loop_pass _ pre) by assumption.
    cbn [get_response_loop py_get]. rewrite Hk, Hr.
    unfold bind at 1; cbn [ret]. unfold bind at 1.
    rewrite check_keywords_strs, clean_text_idem.
    now rewrite (proj2 (existsb_matches_any message ks) Hm).
  - intros fs self members Hdoc Hk.
    rewrite load_intents_cases, Hdoc, Hk. reflexivity.
Qed.

Lemma missing_fields_default_witness :
  fst (get_response "I have a fever"
         {| intents_file := default_intents_file;
            intents := JArr [JObj [(py "response", JStr "Never shown.")];
                             entry_json fever_entry] |}) =
  Return (JStr "Fever care: rest and fluids.", 0.95%float) /\
  fst (get_response "I have a burn"
         {| intents_file := default_intents_file;
            intents := JArr [entry_json fever_entry;
                             JObj [(py "keywords", str_list [py "burn"])]] |}) =
  Return (JStr [], 0.95%float) /\
  load_intents (fun _ => Document (JObj [(py "topics", JArr [JNull])]))
               scenario_bot =
  (Return tt, fresh default_intents_file).
Proof.
  destruct missing_fields_default as [Ha [Hb Hc]].
  split; [|split].
  - assert (Hk : lookup "keywords" [(py "response", JStr "Never shown.")] = None)
      by (vm_compute; reflexivity).
    destruct (Ha "I have a fever" default_intents_file []
                [(py "response", JStr "Never shown.")] [entry_json fever_entry]
                Hk) as [_ H].
    cbn [app] in H. rewrite H. vm_compute. reflexivity.
  - assert (Hpre : entries_of [entry_json fever_entry] = Some [fever_entry])
      by (vm_compute; reflexivity).
    assert (H : Forall (fun e => ~ matches_any "I have a burn" (keywords e))
                  [fever_entry])
      by (repeat constructor; no_match_by_evaluation).
    assert (Hk : lookup "keywords" [(py "keywords", str_list [py "burn"])] =
                 Some (str_list [py "burn"]))
      by (vm_compute; reflexivity).
    assert (Hr : lookup "response" [(py "keywords", str_list [py "burn"])] =
                 None)
      by (vm_compute; reflexivity).
    assert (H' : matches_any "I have a burn" [py "burn"])
      by matches_by_evaluation.
    pose proof (Hb "I have a burn" default_intents_file
                  [entry_json fever_entry] [fever_entry]
                  [(py "keywords", str_list [py "burn"])] [py "burn"] []
                  Hpre H Hk Hr H') as Hrun.
    cbv zeta in Hrun. cbn [app] in Hrun. rewrite Hrun. reflexivity.
  - apply (Hc (fun _ => Document (JObj [(py "topics", JArr [JNull])]))
              scenario_bot [(py "topics", JArr [JNull])]);
      vm_compute; reflexivity.
Defined.

(** C10 -- [get_response] leaves the instance as it found it, whether it
    returns or raises: [self.intents], every entry of it and their order,
    is the same after the call as before. *)
Theorem get_response_read_only (message : str) (self : HealthChatbot) :
  snd (get_response message self) = self /\
  intents (snd (get_response message self)) = intents self /\
  knowledge_base (snd (get_response message self)) = knowledge_base self.
Proof.
  rewrite (read_only_get_response message self). repeat split.
Qed.

(* ================================================================= *)
(** ** The scenarios of the specification, by evaluation *)

Module Scenarios.

Example fever_question :
  get_response "What are fever symptoms?" scenario_bot =
  (Return (JStr "Fever care: rest and fluids.", 0.95%float), scenario_bot).
Proof. vm_compute. reflexivity. Qed.

Example fever_shouted :
  get_response "  FEVER   " scenario_bot =
  (Return (JStr "Fever care: rest and fluids.", 0.95%float), scenario_bot).
Proof. vm_compute. reflexivity. Qed.

Example burn_question :
  get_response "How to treat a burn?" scenario_bot =
  (Return (JStr "Burn care: cool water, no ice.", 0.95%float), scenario_bot).
Proof. vm_compute. reflexivity. Qed.

Example diabetes_question :
  get_response "Tell me about diabetes" scenario_bot =
  (Return (JStr default_response, 0.3%float), scenario_bot).
Proof. vm_compute. reflexivity. Qed.

Example empty_question :
  get_response [] scenario_bot =
  (Return (JStr default_response, 0.3%float), scenario_bot).
Proof. vm_compute. reflexivity. Qed.

(** A record that is not an object stops the scan with an exception,
    and the instance is still untouched. *)
Example scan_of_ill_typed_record :
  get_response "fever"
    {| intents_file := default_intents_file; intents := JArr [JInt 1] |} =
  (Raise AttributeError,
   {| intents_file := default_intents_file; intents := JArr [JInt 1] |}).
Proof. reflexivity. Qed.

(** A no-break space separates words like any whitespace. *)
Example no_break_space :
  get_response (py "high" ++ [160%N] ++ py "temperature") scenario_bot =
  (Return (JStr "Fever care: rest and fluids.", 0.95%float), scenario_bot).
Proof. vm_compute. reflexivity. Qed.

(** Letters outside ASCII are lower-cased too. *)
Example accented_capitals :
  get_response "FIÈVRE"
    (engine_of default_intents_file
       [{| keywords := [py "fièvre"]; response := "Soin." |}]) =
  (Return (JStr "Soin.", 0.95%float),
   engine_of default_intents_file
     [{| keywords := [py "fièvre"]; response := "Soin." |}]).
Proof. vm_compute. reflexivity. Qed.

(** A capital sigma at the end of a word becomes a final sigma, which a
    keyword that is a lone sigma does not match. *)
Example final_sigma_is_not_matched :
  check_keywords "ΑΣ" (str_list [py "Σ"]) scenario_bot =
  (Return false, scenario_bot) /\
  clean_text "ΑΣ" = "ας" /\ clean_text "Σ" = "σ".
Proof. vm_compute. repeat split. Qed.

(** The capital I with a dot lower-cases to two code points. *)
Example dotted_capital_i : clean_text "İ" = [105; 775]%N.
Proof. vm_compute. reflexivity. Qed.

End Scenarios.


(* ================================================================= *)
(** ** Further properties of the code *)




(** X3 -- the normal form of a text is empty exactly when the text is
    empty or made of whitespace only, which is also exactly when
    [strip] empties it. *)
Theorem clean_text_empty_iff_blank (x : str) :
  (clean_text x = [] <-> all_space x = true) /\
  (strip x = [] <-> all_space x = true).
Proof. split; [apply clean_text_empty | apply strip_empty]. Qed.






(** X7 -- whatever [self.intents] holds, when [get_response] returns it
    returns either the default response with confidence 0.3, or, with
    confidence 0.95, the [response] member (the empty string when
    absent) of an object of the list [self.intents]. *)
Theorem confidence_is_binary (message : str) (self self' : HealthChatbot)
        (r : json) (c : float) :
  get_response message self = (Return (r, c), self') ->
  (c = 0.3%float /\ r = JStr default_response) \/
  (c = 0.95%float /\
   exists items members,
     intents self = JArr items /\ In (JObj members) items /\
     r = member_or "response" (JStr []) members).
Proof.
  unfold get_response, bind; simpl.
  destruct (intents self) as [| | | |s|items|members] eqn:Hi; simpl;
    try discriminate; intros H;
    apply get_response_loop_answers in H;
    destruct H as [H | [Hc [mem [Hin Hr]]]]; try (now left).
  - exfalso. apply in_map_iff in Hin. destruct Hin as [x [Hx _]].
    discriminate.
  - right. split; [assumption|]. now exists items, mem.
  - exfalso. apply in_map_iff in Hin. destruct Hin as [x [Hx _]].
    discriminate.
Qed.

Lemma confidence_is_binary_witness :
  (0.95%float = 0.3%float /\
   JStr "Fever care: rest and fluids." = JStr default_response) \/
  (0.95%float = 0.95%float /\
   exists items members,
     intents scenario_bot = JArr items /\ In (JObj members) items /\
     JStr "Fever care: rest and fluids." =
     member_or "response" (JStr []) members).
Proof.
  apply (confidence_is_binary "fever?" scenario_bot scenario_bot).
  vm_compute. reflexivity.
Defined.

(** X8 -- knowledge bases concatenate.  Unless the records of [items]
    lead to the default answer, records appended after them change
    nothing, not even when they are ill-typed; when they do lead to the
    default answer, the answer is that of the appended records alone. *)
Theorem knowledge_bases_concatenate (message file : str)
        (items more : list json) :
  let bot l := {| intents_file := file; intents := JArr l |} in
  (fst (get_response message (bot items)) <> fallback ->
   fst (get_response message (bot (items ++ more)%list)) =
   fst (get_response message (bot items))) /\
  (fst (get_response message (bot items)) = fallback ->
   fst (get_response message (bot (items ++ more)%list)) =
   fst (get_response message (bot more))).
Proof.
  cbv beta zeta. rewrite !get_response_list. unfold fallback.
  set (self0 := {| intents_file := file; intents := JArr items |}).
  destruct (get_response_loop_app (clean_text message) items more self0)
    as [Ha Hb].
  split; intros H.
  - rewrite <- (Ha H). apply get_response_loop_fst.
  - rewrite (get_response_loop_fst _ (items ++ more)%list _ self0), (Hb H).
    apply get_response_loop_fst.
Qed.

Lemma knowledge_bases_concatenate_witness :
  fst (get_response "I have a fever"
         {| intents_file := default_intents_file;
            intents := JArr [entry_json fever_entry; JNull] |}) =
  Return (JStr "Fever care: rest and fluids.", 0.95%float) /\
  fst (get_response "I have a burn"
         {| intents_file := default_intents_file;
            intents := JArr [entry_json fever_entry; entry_json burn_entry] |}) =
  Return (JStr "Burn care: cool water, no ice.", 0.95%float).
Proof.
  destruct (knowledge_bases_concatenate "I have a fever" default_intents_file
              [entry_json fever_entry] [JNull]) as [Ha _].
  destruct (knowledge_bases_concatenate "I have a burn" default_intents_file
              [entry_json fever_entry] [entry_json burn_entry]) as [_ Hb].
  cbv beta zeta in Ha, Hb. cbn [app] in Ha, Hb.
  split.
  - rewrite Ha; [vm_compute; reflexivity|].
    intros H. apply confidence_distinct.
    vm_compute in H. congruence.
  - rewrite Hb; vm_compute; reflexivity.
Defined.

(** X9 -- loading is repeatable: a second [load_intents] from the same
    files ends in the same result and the same instance as the first.
    The result never depends on what [self.intents] held before, and
    after a load that returns neither does the instance. *)
Theorem load_intents_repeatable (fs : filesystem) (self : HealthChatbot) :
  load_intents fs (snd (load_intents fs self)) = load_intents fs self /\
  (forall v,
      let other := {| intents_file := intents_file self; intents := v |} in
      fst (load_intents fs other) = fst (load_intents fs self) /\
      (fst (load_intents fs self) = Return tt ->
       snd (load_intents fs other) = snd (load_intents fs self))).
Proof.
  split.
  - rewrite (load_intents_cases fs self).
    destruct (fs (intents_file self)) as [| | | | | | | | |data] eqn:Hsrc;
      try (rewrite load_intents_cases; cbn [snd intents_file];
           now rewrite Hsrc).
    destruct data as [| | | | | |members];
      try (rewrite load_intents_cases; cbn [snd intents_file];
           now rewrite Hsrc).
    cbv zeta.
    destruct (match lookup "intents" members with
              | Some v => v
              | None => JArr []
              end) eqn:Hv;
      rewrite load_intents_cases; cbn [snd intents_file];
      rewrite Hsrc; cbv zeta; now rewrite Hv.
  - intros v other. subst other. rewrite !load_intents_cases.
    cbn [intents_file].
    destruct (fs (intents_file self)) as [| | | | | | | | |data];
      try (split; [reflexivity | (reflexivity || discriminate)]).
    destruct data as [| | | | | |members];
      try (split; [reflexivity | discriminate]).
    cbv zeta.
    destruct (match lookup "intents" members with
              | Some v => v
              | None => JArr []
              end); split; reflexivity || discriminate.
Qed.

(** X10 -- an instance the constructor returns keeps the file name it was
    given, and its [intents] has a length: it is the empty list after a
    missing or non-JSON file, and otherwise the [intents] member of the
    loaded object, or the empty list when the object has none. *)
Theorem init_invariant (fs : filesystem) (file : str)
        (self : HealthChatbot) :
  init fs file = Return self ->
  intents_file self = file /\
  sized (intents self) = true /\
  (exists n, py_len (intents self) self = (Return n, self)) /\
  (((fs file = Missing \/ fs file = Malformed) /\ intents self = JArr []) \/
   (exists members,
       fs file = Document (JObj members) /\
       intents self = member_or "intents" (JArr []) members)).
Proof.
  rewrite init_cases. intros H.
  assert (Hgoal : intents_file self = file /\ sized (intents self) = true /\
                  (((fs file = Missing \/ fs file = Malformed) /\
                    intents self = JArr []) \/
                   (exists members,
                       fs file = Document (JObj members) /\
                       intents self = member_or "intents" (JArr []) members))).
  { destruct (fs file) as [| | | | | | | | |data]; try discriminate.
    - inversion H; subst. repeat split. left. split; [now left | reflexivity].
    - inversion H; subst. repeat split. left. split; [now right | reflexivity].
    - destruct data as [| | | | | |members]; try discriminate.
      cbv zeta in H.
      destruct (sized (member_or "intents" (JArr []) members)) eqn:Hs;
        [|discriminate].
      inversion H; subst. repeat split; [assumption|].
      right. now exists members. }
  destruct Hgoal as [Hf [Hs Hsrc]]. repeat split; try assumption.
  now apply py_len_sized.
Qed.

Lemma init_invariant_witness :
  intents_file scenario_bot = default_intents_file /\
  sized (intents scenario_bot) = true /\
  (exists n, py_len (intents scenario_bot) scenario_bot =
             (Return n, scenario_bot)) /\
  ((((fun _ : str =>
        Document (JObj [(py "intents", intents scenario_bot)]))
       default_intents_file = Missing \/
     (fun _ : str =>
        Document (JObj [(py "intents", intents scenario_bot)]))
       default_intents_file = Malformed) /\
    intents scenario_bot = JArr []) \/
   (exists members,
       (fun _ : str =>
          Document (JObj [(py "intents", intents scenario_bot)]))
         default_intents_file = Document (JObj members) /\
       intents scenario_bot = member_or "intents" (JArr []) members)).
Proof.
  apply (init_invariant
           (fun _ => Document (JObj [(py "intents", intents scenario_bot)]))
           default_intents_file scenario_bot).
  vm_compute. reflexivity.
Defined.

(** X11 -- the errors of the scan.  When no topic record before it
    matches, a record that is not an object makes [get_response] raise
    [AttributeError]; so does a keyword that is not a string and is
    reached before any keyword of its list matches; a [keywords] member
    that is null, a boolean or a number raises [TypeError]. *)
Theorem ill_typed_record_raises (message file : str)
        (pre_items : list json) (pre : list TopicEntry) (j : json)
        (rest : list json) :
  entries_of pre_items = Some pre ->
  Forall (fun e => ~ matches_any message (keywords e)) pre ->
  let bot := {| intents_file := file;
                intents := JArr (pre_items ++ j :: rest)%list |} in
  ((forall members, j <> JObj members) ->
   get_response message bot = (Raise AttributeError, bot)) /\
  (forall members v,
      j = JObj members -> lookup "keywords" members = Some v ->
      sized v = false ->
      get_response message bot = (Raise TypeError, bot)) /\
  (forall members ks v more,
      j = JObj members ->
      lookup "keywords" members = Some (JArr (map JStr ks ++ v :: more)%list) ->
      ~ matches_any message ks ->
      (forall s, v <> JStr s) ->
      get_response message bot = (Raise AttributeError, bot)).
Proof.
  intros Hpre Hno bot. subst bot. rewrite get_response_list.
  rewrite (get_response_loop_pass _ pre) by assumption.
  rewrite get_response_loop_cons.
  split; [|split].
  - intros Hj. destruct j; try reflexivity. now contradiction (Hj members).
  - intros members v -> Hk Hv. unfold member_or. rewrite Hk.
    destruct v; try discriminate; reflexivity.
  - intros members ks v more -> Hk Hnone Hv.
    unfold member_or. rewrite Hk.
    unfold check_keywords, bind; cbn [py_iter ret]. rewrite clean_text_idem.
    apply existsb_matches_none in Hnone.
    assert (Hloop : forall self,
               check_keywords_loop (clean_text message)
                 (map JStr ks ++ v :: more)%list self =
               (Raise AttributeError, self)).
    { clear Hk. intros self. induction ks as [|k ks IH].
      - cbn [map app check_keywords_loop]. unfold bind.
        destruct v; try reflexivity. now contradiction (Hv s).
      - cbn [existsb] in Hnone. apply orb_false_iff in Hnone as [Hk0 Hks].
        cbn [map app check_keywords_loop]. unfold bind; cbn [call_clean_text ret].
        rewrite Hk0. exact (IH Hks). }
    now rewrite Hloop.
Qed.

Lemma ill_typed_record_raises_witness :
  get_response "I have a burn"
    {| intents_file := default_intents_file;
       intents := JArr [entry_json fever_entry; JStr "burn"] |} =
  (Raise AttributeError,
   {| intents_file := default_intents_file;
      intents := JArr [entry_json fever_entry; JStr "burn"] |}).
Proof.
  assert (H : Forall (fun e => ~ matches_any "I have a burn" (keywords e))
                [fever_entry])
    by (repeat constructor; no_match_by_evaluation).
  destruct (ill_typed_record_raises "I have a burn" default_intents_file
              [entry_json fever_entry] [fever_entry] (JStr "burn") []
              eq_refl H) as [Ha _].
  apply Ha. intros members. discriminate.
Defined.

(** X12 -- a message that is empty or made of whitespace is matched by
    blank keywords only: on a knowledge base of topic records without
    such a keyword it gets the default response and 0.3. *)
Theorem blank_message_gets_default (self : HealthChatbot) (message : str)
        (kb : list TopicEntry) :
  knowledge_base self = Some kb ->
  all_space message = true ->
  Forall (fun e => Forall (fun k => all_space k = false) (keywords e)) kb ->
  get_response message self = (fallback, self).
Proof.
  intros Hkb Hm Hks.
  destruct (get_response_total message kb self Hkb)
    as [r [c [Hrun [[Hc Hex] | [Hc [Hr Hall]]]]]].
  - exfalso. apply Exists_exists in Hex. destruct Hex as [e [He [Hmatch _]]].
    destruct (blank_message_matches _ _ Hm Hmatch) as [k [Hk Hblank]].
    rewrite Forall_forall in Hks. specialize (Hks e He).
    rewrite Forall_forall in Hks. specialize (Hks k Hk). congruence.
  - subst. exact Hrun.
Qed.

Lemma blank_message_gets_default_witness :
  get_response "    " scenario_bot = (fallback, scenario_bot).
Proof.
  apply (blank_message_gets_default scenario_bot "    " scenario_kb).
  - reflexivity.
  - reflexivity.
  - repeat constructor.
Defined.

(** X13 -- on a knowledge base of topic records [get_response] never
    raises: it returns a string, with 0.95 when it is the response of a
    matching entry and with 0.3 when it is the default response and no
    entry matches. *)
Theorem get_response_returns_on_topic_records (self : HealthChatbot)
        (message : str) (kb : list TopicEntry) :
  knowledge_base self = Some kb ->
  exists r c,
    get_response message self = (Return (JStr r, c), self) /\
    ((c = 0.95%float /\
      Exists (fun e => matches_any message (keywords e) /\ r = response e) kb)
     \/
     (c = 0.3%float /\ r = default_response /\
      Forall (fun e => ~ matches_any message (keywords e)) kb)).
Proof. apply get_response_total. Qed.

Lemma get_response_returns_on_topic_records_witness :
  exists r c,
    get_response "How to treat a burn?" scenario_bot =
    (Return (JStr r, c), scenario_bot) /\
    ((c = 0.95%float /\
      Exists (fun e => matches_any "How to treat a burn?" (keywords e) /\
                       r = response e) scenario_kb)
     \/
     (c = 0.3%float /\ r = default_response /\
      Forall (fun e => ~ matches_any "How to treat a burn?" (keywords e))
             scenario_kb)).
Proof.
  apply (get_response_returns_on_topic_records scenario_bot
           "How to treat a burn?" scenario_kb).
  reflexivity.
Defined.



(** X15 -- a message that is empty or made of whitespace is rejected
    with the 400 reply 'Empty message'; the engine is not consulted and
    the module-level [chatbot] stays as it is. *)
Theorem chat_rejects_blank_message (chatbot : option HealthChatbot)
        (members : list (str * json)) (s : str) :
  lookup "message" members = Some (JStr s) ->
  all_space s = true ->
  chat chatbot (Json (JObj members)) = (empty_message_reply, chatbot).
Proof.
  intros Hm Hs. unfold chat. rewrite (chat_try_object _ _ _ Hm).
  cbn [call_strip]. now rewrite (proj2 (strip_empty s) Hs).
Qed.

Lemma chat_rejects_blank_message_witness :
  chat (Some scenario_bot) (ask "   ") =
  (empty_message_reply, Some scenario_bot).
Proof.
  apply (chat_rejects_blank_message (Some scenario_bot)
           [(py "message", JStr "   ")] "   "); reflexivity.
Defined.

(** X16 -- for a message with something other than whitespace in it,
    [chat] answers what [get_response] answers on the message as sent
    (stripping it first makes no difference): the 200 reply carrying its
    response and confidence, or the 500 reply when it raises; the
    module-level [chatbot] stays as it is. *)
Theorem chat_answers_like_engine (bot : HealthChatbot)
        (members : list (str * json)) (s : str) :
  lookup "message" members = Some (JStr s) ->
  all_space s = false ->
  chat (Some bot) (Json (JObj members)) =
  (match fst (get_response s bot) with
   | Return (r, c) => success_reply r c
   | Raise _ => error_reply
   end, Some bot).
Proof. apply chat_accepted. Qed.

Lemma chat_answers_like_engine_witness :
  chat (Some scenario_bot) (ask "  I have a FEVER ") =
  (match fst (get_response "  I have a FEVER " scenario_bot) with
   | Return (r, c) => success_reply r c
   | Raise _ => error_reply
   end, Some scenario_bot).
Proof.
  apply (chat_answers_like_engine scenario_bot
           [(py "message", JStr "  I have a FEVER ")] "  I have a FEVER ");
    reflexivity.
Defined.

(** X17 -- with an engine whose knowledge base is a list of topic
    records, every message with something other than whitespace in it
    gets the 200 reply: the response of a matching entry with 0.95, or
    the default response with 0.3 when no entry matches. *)
Theorem chat_on_topic_records (bot : HealthChatbot) (kb : list TopicEntry)
        (members : list (str * json)) (s : str) :
  knowledge_base bot = Some kb ->
  lookup "message" members = Some (JStr s) ->
  all_space s = false ->
  exists r c,
    chat (Some bot) (Json (JObj members)) =
    (success_reply (JStr r) c, Some bot) /\
    ((c = 0.95%float /\
      Exists (fun e => matches_any s (keywords e) /\ r = response e) kb) \/
     (c = 0.3%float /\ r = default_response /\
      Forall (fun e => ~ matches_any s (keywords e)) kb)).
Proof.
  intros Hkb Hm Hs.
  destruct (get_response_total s kb bot Hkb) as [r [c [Hrun Hcases]]].
  exists r, c. split; [|assumption].
  rewrite (chat_accepted _ _ _ Hm Hs). now rewrite Hrun.
Qed.

Lemma chat_on_topic_records_witness :
  exists r c,
    chat (Some scenario_bot) (ask "Tell me about diabetes") =
    (success_reply (JStr r) c, Some scenario_bot) /\
    ((c = 0.95%float /\
      Exists (fun e => matches_any "Tell me about diabetes" (keywords e) /\
                       r = response e) scenario_kb) \/
     (c = 0.3%float /\ r = default_response /\
      Forall (fun e => ~ matches_any "Tell me about diabetes" (keywords e))
             scenario_kb)).
Proof.
  apply (chat_on_topic_records scenario_bot scenario_kb
           [(py "message", JStr "Tell me about diabetes")]
           "Tell me about diabetes"); reflexivity.
Defined.

(** X18 -- the server starts without an engine exactly when the default
    intents file cannot be opened or decoded, holds a JSON value that is
    not an object, or an object whose [intents] member has no length.
    It then still answers 200 with status 'success' to every message
    with something other than whitespace in it: the text that the engine
    is not available, with confidence 0. *)
Theorem chat_without_engine (fs : filesystem) :
  (startup fs = None <-> unloadable (fs default_intents_file) = true) /\
  (unloadable (fs default_intents_file) = true ->
   forall members s,
     lookup "message" members = Some (JStr s) ->
     all_space s = false ->
     chat (startup fs) (Json (JObj members)) =
     (success_reply (JStr unavailable) 0%float, None)).
Proof.
  rewrite startup_cases.
  destruct (unloadable (fs default_intents_file)).
  - split; [now split|]. intros _ members s Hm Hs.
    unfold chat. rewrite (chat_try_object _ _ _ Hm). cbn [call_strip].
    destruct (strip_not_blank s Hs) as [c [r ->]]. reflexivity.
  - split; [split; discriminate | discriminate].
Qed.

Lemma chat_without_engine_witness :
  chat (startup (fun _ => Document (JArr [entry_json fever_entry])))
       (ask "I have a fever") =
  (success_reply (JStr unavailable) 0%float, None).
Proof.
  destruct (chat_without_engine
              (fun _ => Document (JArr [entry_json fever_entry])))
    as [_ H].
  apply (H eq_refl [(py "message", JStr "I have a fever")] "I have a fever");
    reflexivity.
Defined.

Ltac settle_health_check n :=
  exists n; split; [reflexivity|];
  split; [try discriminate; reflexivity|];
  split; [try (intros [H|H]; discriminate); reflexivity|];
  intros members0 items0 H0 H1; try discriminate H0;
  inversion H0; subst; congruence.

(** X19 -- after start-up [health_check] never raises: it reports
    whether the engine was constructed and the length of its [intents],
    which is 0 without an engine and after a missing or non-JSON file,
    and the number of records when the file holds an object whose
    [intents] member is a list. *)
Theorem health_check_after_startup (fs : filesystem) :
  exists n,
    health_check (startup fs) =
    (Return (health_reply (negb (unloadable (fs default_intents_file))) n),
     startup fs) /\
    (unloadable (fs default_intents_file) = true -> n = 0) /\
    (fs default_intents_file = Missing \/
     fs default_intents_file = Malformed -> n = 0) /\
    (forall members items,
        fs default_intents_file = Document (JObj members) ->
        lookup "intents" members = Some (JArr items) ->
        n = List.length items).
Proof.
  rewrite startup_cases.
  destruct (fs default_intents_file) as [| | | | | | | | |data];
    try (settle_health_check 0).
  destruct data as [| | | | | |members]; try (settle_health_check 0).
  cbn [unloadable] in *. unfold member_or in *.
  destruct (lookup "intents" members) as [v|] eqn:Hv;
    [|settle_health_check 0].
  destruct v as [|b|n|f|s|items|mem].
  - settle_health_check 0.
  - settle_health_check 0.
  - settle_health_check 0.
  - settle_health_check 0.
  - settle_health_check (List.length s).
  - settle_health_check (List.length items).
  - settle_health_check (List.length mem).
Qed.
